(** * dog_mcp: the request adapter of [dog_mcp_server.py]

    A shallow embedding of the four tools of the server
    ([get_random_dog_image], [get_dog_breeds], [search_dog_images],
    [check_dog_api_status]) and the properties their specification states.

    - JSON values are the Python objects [response.json()] yields and
      [json.dumps] prints; Python [int] is [Z].
    - A Python [str] is a [string] whose characters are the code points
      U+0000..U+00FF.
    - The HTTP client and the clock are an environment the tools call; the
      requests sent are logged in the state.
    - Python exceptions are values of [exn]; [try]/[except] is [try_except]. *)

From Stdlib Require Import ZArith List String Ascii Bool Lia.
From Stdlib Require Import DecimalString.
Import ListNotations.
Open Scope string_scope.
Open Scope Z_scope.

(** ** JSON values *)

(** A Python [float] is seen by this program only through its [repr] (in
    [json.dumps]) and its truth value. *)
Record pyfloat := { float_repr : string; float_is_zero : bool }.

#[local] Set Warnings "-register-all".

Inductive json :=
| JNull
| JBool (b : bool)
| JInt (n : Z)
| JFloat (x : pyfloat)
| JStr (s : string)
| JList (l : list json)
| JDict (d : list (string * json)).

(** A Python [dict] with [str] keys, in insertion order. *)
Definition dict := list (string * json).

Fixpoint dict_get (k : string) (d : dict) : option json :=
  match d with
  | [] => None
  | (k', v) :: d' => if String.eqb k k' then Some v else dict_get k d'
  end.

(** [d[k] = v]: an existing key keeps its place, a new one goes last. *)
Fixpoint dict_set (k : string) (v : json) (d : dict) : dict :=
  match d with
  | [] => [(k, v)]
  | (k', v') :: d' =>
      if String.eqb k k' then (k', v) :: d' else (k', v') :: dict_set k v d'
  end.

Definition dict_has (k : string) (d : dict) : bool :=
  match dict_get k d with Some _ => true | None => false end.

(** [d[k].append(x)] for a key holding a list. *)
Definition dict_append (k : string) (x : json) (d : dict) : dict :=
  match dict_get k d with
  | Some (JList l) => dict_set k (JList (l ++ [x])) d
  | _ => d
  end.

(** ** Exceptions *)

(** The subclasses of [Exception] this program can meet. *)
Inductive exn :=
| TimeoutException (msg : string)   (* httpx.TimeoutException *)
| TransportError (msg : string)     (* any other failure of client.get *)
| JSONDecodeError (msg : string)    (* response.json() on a malformed body *)
| AttributeError (msg : string)
| TypeError (msg : string)
| KeyError (key_repr : string)
| IndexError (msg : string).

(** [str(e)] *)
Definition str_exn (e : exn) : string :=
  match e with
  | TimeoutException m | TransportError m | JSONDecodeError m
  | AttributeError m | TypeError m | KeyError m | IndexError m => m
  end.

Definition is_timeout (e : exn) : bool :=
  match e with TimeoutException _ => true | _ => false end.

(** Pure computations that may raise. *)
Definition E (A : Type) : Type := (exn + A)%type.

Definition ebind {A B} (c : E A) (k : A -> E B) : E B :=
  match c with inl e => inl e | inr a => k a end.

(** ** Python operations on JSON values *)

Definition type_name (v : json) : string :=
  match v with
  | JNull => "NoneType" | JBool _ => "bool" | JInt _ => "int"
  | JFloat _ => "float" | JStr _ => "str" | JList _ => "list"
  | JDict _ => "dict"
  end.

(** [bool(v)] *)
Definition truthy (v : json) : bool :=
  match v with
  | JNull => false
  | JBool b => b
  | JInt n => negb (n =? 0)
  | JFloat x => negb (float_is_zero x)
  | JStr s => match s with EmptyString => false | _ => true end
  | JList l => match l with [] => false | _ => true end
  | JDict d => match d with [] => false | _ => true end
  end.

(** [bool(s)] for an [Optional[str]] *)
Definition truthy_opt (s : option string) : bool :=
  match s with
  | Some (String _ _) => true
  | Some EmptyString | None => false
  end.

Definition or_null (o : option json) : json :=
  match o with Some v => v | None => JNull end.

(** [v.get(k, dflt)] *)
Definition py_get (v : json) (k : string) (dflt : json) : E json :=
  match v with
  | JDict d => inr (match dict_get k d with Some x => x | None => dflt end)
  | _ => inl (AttributeError
                ("'" ++ type_name v ++ "' object has no attribute 'get'"))
  end.

Definition chars (s : string) : list json :=
  map (fun c => JStr (String c EmptyString)) (list_ascii_of_string s).

(** [len(v)] *)
Definition py_len (v : json) : E Z :=
  match v with
  | JStr s => inr (Z.of_nat (String.length s))
  | JList l => inr (Z.of_nat (List.length l))
  | JDict d => inr (Z.of_nat (List.length d))
  | _ => inl (TypeError ("object of type '" ++ type_name v ++ "' has no len()"))
  end.

(** The items [for x in v] runs through. *)
Definition py_iter (v : json) : E (list json) :=
  match v with
  | JList l => inr l
  | JDict d => inr (map (fun kv => JStr (fst kv)) d)
  | JStr s => inr (chars s)
  | _ => inl (TypeError ("'" ++ type_name v ++ "' object is not iterable"))
  end.

(** [v[0]] *)
Definition py_index0 (v : json) : E json :=
  match v with
  | JList (x :: _) => inr x
  | JList [] => inl (IndexError "list index out of range")
  | JStr (String c _) => inr (JStr (String c EmptyString))
  | JStr EmptyString => inl (IndexError "string index out of range")
  | JDict _ => inl (KeyError "0")
  | _ => inl (TypeError ("'" ++ type_name v ++ "' object is not subscriptable"))
  end.

(** [v[k]] for a [str] key *)
Definition py_item (v : json) (k : string) : E json :=
  match v with
  | JDict d =>
      match dict_get k d with
      | Some x => inr x
      | None => inl (KeyError ("'" ++ k ++ "'"))
      end
  | JList _ => inl (TypeError "list indices must be integers or slices, not str")
  | JStr _ => inl (TypeError "string indices must be integers, not 'str'")
  | _ => inl (TypeError ("'" ++ type_name v ++ "' object is not subscriptable"))
  end.

Fixpoint is_prefix (p s : string) : bool :=
  match p, s with
  | EmptyString, _ => true
  | String a p', String b s' => Ascii.eqb a b && is_prefix p' s'
  | String _ _, EmptyString => false
  end.

(** [sub in s] on strings *)
Fixpoint contains (sub s : string) : bool :=
  is_prefix sub s ||
  match s with EmptyString => false | String _ s' => contains sub s' end.

(** [k in v] for a [str] key *)
Definition py_in (k : string) (v : json) : E bool :=
  match v with
  | JDict d => inr (dict_has k d)
  | JList l =>
      inr (existsb (fun x => match x with JStr s => String.eqb s k
                                        | _ => false end) l)
  | JStr s => inr (contains k s)
  | _ => inl (TypeError ("argument of type '" ++ type_name v
                           ++ "' is not iterable"))
  end.

(** [str(n)] for an [int] *)
Definition str_int (n : Z) : string := NilZero.string_of_int (Z.to_int n).

(** ** [json.dumps(v, indent=2)] *)

Definition hex_digit (n : N) : ascii :=
  match n with
  | 0%N => "0" | 1%N => "1" | 2%N => "2" | 3%N => "3" | 4%N => "4"
  | 5%N => "5" | 6%N => "6" | 7%N => "7" | 8%N => "8" | 9%N => "9"
  | 10%N => "a" | 11%N => "b" | 12%N => "c" | 13%N => "d" | 14%N => "e"
  | _ => "f"
  end%char.

Definition backslash : ascii := ascii_of_N 92.
Definition dquote : ascii := ascii_of_N 34.

(** One character of a string literal, with [ensure_ascii]: the quote, the
    backslash and the named control characters get their two-character
    escape, everything else outside [' '..'~'] becomes [\u00xx]. *)
Definition escape_char (c : ascii) : string :=
  let n := N_of_ascii c in
  if (n =? 34)%N then String backslash (String dquote EmptyString)
  else if (n =? 92)%N then String backslash (String backslash EmptyString)
  else if (n =? 10)%N then String backslash "n"
  else if (n =? 13)%N then String backslash "r"
  else if (n =? 9)%N then String backslash "t"
  else if (n =? 12)%N then String backslash "f"
  else if (n =? 8)%N then String backslash "b"
  else if ((n <? 32) || (126 <? n))%N then
    String backslash
      ("u00" ++ String (hex_digit (n / 16))
                  (String (hex_digit (n mod 16)) EmptyString))
  else String c EmptyString.

Fixpoint escape (s : string) : string :=
  match s with
  | EmptyString => EmptyString
  | String c s' => escape_char c ++ escape s'
  end.

Definition quote (s : string) : string :=
  String dquote (escape s) ++ String dquote EmptyString.

Fixpoint spaces (n : nat) : string :=
  match n with O => EmptyString | S n' => String " "%char (spaces n') end.

Definition newline_indent (level : nat) : string :=
  String (ascii_of_N 10) (spaces (2 * level)).

Fixpoint encode (level : nat) (v : json) : string :=
  match v with
  | JNull => "null"
  | JBool true => "true"
  | JBool false => "false"
  | JInt n => str_int n
  | JFloat x => float_repr x
  | JStr s => quote s
  | JList [] => "[]"
  | JList (x :: xs) =>
      "[" ++ newline_indent (S level) ++ encode (S level) x
      ++ (fix items (l : list json) : string :=
            match l with
            | [] => EmptyString
            | y :: ys =>
                "," ++ newline_indent (S level) ++ encode (S level) y ++ items ys
            end) xs
      ++ newline_indent level ++ "]"
  | JDict [] => "{}"
  | JDict ((k, x) :: kxs) =>
      "{" ++ newline_indent (S level) ++ quote k ++ ": " ++ encode (S level) x
      ++ (fix items (l : list (string * json)) : string :=
            match l with
            | [] => EmptyString
            | (k', y) :: ys =>
                "," ++ newline_indent (S level) ++ quote k' ++ ": "
                ++ encode (S level) y ++ items ys
            end) kxs
      ++ newline_indent level ++ "}"
  end.

Definition json_dumps (v : json) : string := encode 0 v.


(** ** The environment: HTTP client and clock *)

Record Request := {
  url : string;
  params : dict;
  headers : list (string * string)
}.

(** An [httpx.Response]: [body] is what [response.json()] gives, the decoded
    value or the message of the decoding error. *)
Record Response := {
  status_code : Z;
  text : string;
  body : (string + json)%type
}.

Inductive outcome :=
| Responded (r : Response)
| Raised (e : exn).

(** What a tool has done so far: the requests sent, oldest first, and the
    number of clock readings. *)
Record State := { sent : list Request; clock_reads : nat }.

Definition initial : State := {| sent := []; clock_reads := 0 |}.

(** The state after one more request. *)
Definition after_request (s : State) (req : Request) : State :=
  {| sent := sent s ++ [req]; clock_reads := clock_reads s |}.

(** The upstream API and the clock may answer anything, and differently at
    each call. *)
Record Env := {
  http : State -> Request -> outcome;
  now_isoformat : State -> string
}.

(** Computations that call the environment and may raise. *)
Definition M (A : Type) : Type := State -> E A * State.

Definition ret {A} (a : A) : M A := fun s => (inr a, s).

Definition bind {A B} (c : M A) (k : A -> M B) : M B :=
  fun s => match c s with
           | (inl e, s') => (inl e, s')
           | (inr a, s') => k a s'
           end.

Definition lift {A} (c : E A) : M A := fun s => (c, s).

(** [try: body except Exception as e: handler e] *)
Definition try_except {A} (body : M A) (handler : exn -> M A) : M A :=
  fun s => match body s with
           | (inl e, s') => handler e s'
           | (inr a, s') => (inr a, s')
           end.

Notation "x <- c ;; k" := (bind c (fun x => k))
  (at level 61, c at next level, right associativity).
Notation "x <~ c ;; k" := (ebind c (fun x => k))
  (at level 61, c at next level, right associativity).

(** [for x in items: acc = body x acc] *)
Fixpoint for_in {A} (items : list json) (acc : A) (body : json -> A -> E A)
  : E A :=
  match items with
  | [] => inr acc
  | x :: xs => acc' <~ body x acc ;; for_in xs acc' body
  end.

Definition response_json (r : Response) : E json :=
  match body r with
  | inr v => inr v
  | inl msg => inl (JSONDecodeError msg)
  end.

(** Every [return] of the four tools is [return json.dumps(doc, indent=2)]
    of a dictionary [doc]: a tool is the computation of its dictionary,
    serialised. *)
Definition serialized (c : M dict) : M string :=
  doc <- c ;; ret (json_dumps (JDict doc)).

Definition DOG_API_BASE_URL : string := "https://api.thedogapi.com/v1".

Section Tools.

Variable env : Env.
(** [os.getenv("DOG_API_KEY")] *)
Variable API_KEY : option string.

(** [await client.get(url, params=..., headers=...)] *)
Definition client_get (req : Request) : M Response :=
  fun s =>
    let s' := after_request s req in
    match http env s req with
    | Responded r => (inr r, s')
    | Raised e => (inl e, s')
    end.

(** [datetime.now().isoformat()] *)
Definition datetime_now : M string :=
  fun s => (inr (now_isoformat env s),
            {| sent := sent s; clock_reads := S (clock_reads s) |}).

(** [headers = {}; if API_KEY: headers["x-api-key"] = API_KEY] *)
Definition key_headers : list (string * string) :=
  match API_KEY with
  | Some (String c k) => [("x-api-key", String c k)]
  | _ => []
  end.

(** *** get_random_dog_image *)

Definition random_limit (limit : Z) : Z :=
  if (limit <? 1) || (limit >? 10) then 1 else limit.

(** [if value: params[key] = value] *)
Definition set_if_given (key : string) (value : option string) (params : dict)
  : dict :=
  match value with
  | Some v => if truthy_opt value then dict_set key (JStr v) params else params
  | None => params
  end.

Definition random_params (breed_id category_ids : option string)
    (format : string) (limit : Z) : dict :=
  let limit := random_limit limit in
  let params := [("limit", JInt limit); ("format", JStr format)] in
  let params := set_if_given "breed_ids" breed_id params in
  set_if_given "category_ids" category_ids params.

Definition random_request (breed_id category_ids : option string)
    (format : string) (limit : Z) : Request :=
  {| url := DOG_API_BASE_URL ++ "/images/search";
     params := random_params breed_id category_ids format limit;
     headers := key_headers |}.

(** [if "breeds" in img and img["breeds"]] *)
Definition has_breeds_entry (img : json) : E bool :=
  present <~ py_in "breeds" img ;;
  if present then (b <~ py_item img "breeds" ;; inr (truthy b)) else inr false.

(** The body of the loop over the images, up to the [append]. *)
Definition random_image_info (img : json) : E dict :=
  id <~ py_get img "id" JNull ;;
  u <~ py_get img "url" JNull ;;
  w <~ py_get img "width" JNull ;;
  h <~ py_get img "height" JNull ;;
  let image_info := [("id", id); ("url", u); ("width", w); ("height", h)] in
  c <~ has_breeds_entry img ;;
  if c then
    breeds <~ py_item img "breeds" ;;
    breed <~ py_index0 breeds ;;
    name <~ py_get breed "name" JNull ;;
    temperament <~ py_get breed "temperament" JNull ;;
    life_span <~ py_get breed "life_span" JNull ;;
    weight <~ py_get breed "weight" (JDict []) ;;
    weight_metric <~ py_get weight "metric" (JStr "Unknown") ;;
    height <~ py_get breed "height" (JDict []) ;;
    height_metric <~ py_get height "metric" (JStr "Unknown") ;;
    inr (dict_set "breed"
           (JDict [("name", name); ("temperament", temperament);
                   ("life_span", life_span); ("weight", weight_metric);
                   ("height", height_metric)])
           image_info)
  else inr image_info.

Definition random_success (data : json) : E dict :=
  n <~ py_len data ;;
  let result := [("status", JStr "success"); ("count", JInt n);
                 ("images", JList [])] in
  items <~ py_iter data ;;
  for_in items result
    (fun img result =>
       image_info <~ random_image_info img ;;
       inr (dict_append "images" (JDict image_info) result)).

Definition random_body (breed_id category_ids : option string)
    (format : string) (limit : Z) : M dict :=
  response <- client_get (random_request breed_id category_ids format limit) ;;
  if status_code response =? 200 then
    data <- lift (response_json response) ;;
    lift (random_success data)
  else
    ret [("status", JStr "error");
         ("message", JStr ("API request failed with status "
                             ++ str_int (status_code response)));
         ("details", JStr (text response))].

Definition random_timeout_doc : dict :=
  [("status", JStr "error");
   ("message", JStr "Request timeout - The Dog API took too long to respond");
   ("suggestion", JStr "Please try again in a moment")].

(** The [except Exception as e] document of every tool. *)
Definition generic_error (prefix : string) (e : exn) : M dict :=
  timestamp <- datetime_now ;;
  ret [("status", JStr "error");
       ("message", JStr (prefix ++ str_exn e));
       ("timestamp", JStr timestamp)].

(** The dictionary [get_random_dog_image] hands to [json.dumps]. *)
Definition get_random_dog_image_doc (breed_id category_ids : option string)
    (format : string) (limit : Z) : M dict :=
  try_except (random_body breed_id category_ids format limit)
    (fun e =>
       if is_timeout e then ret random_timeout_doc
       else generic_error "Unexpected error: " e).

Definition get_random_dog_image (breed_id category_ids : option string)
    (format : string) (limit : Z) : M string :=
  serialized (get_random_dog_image_doc breed_id category_ids format limit).

(** *** get_dog_breeds *)

Definition breeds_limit (limit : Z) : Z :=
  if (limit <? 1) || (limit >? 100) then 10 else limit.

Definition breeds_page (page : Z) : Z := if page <? 0 then 0 else page.

Definition breeds_params (limit page : Z) (search : option string) : dict :=
  let limit := breeds_limit limit in
  let page := breeds_page page in
  let params := [("limit", JInt limit); ("page", JInt page)] in
  set_if_given "q" search params.

Definition breeds_request (limit page : Z) (search : option string) : Request :=
  {| url := DOG_API_BASE_URL ++ "/breeds";
     params := breeds_params limit page search;
     headers := key_headers |}.

Definition breed_info (breed : json) : E dict :=
  id <~ py_get breed "id" JNull ;;
  name <~ py_get breed "name" JNull ;;
  temperament <~ py_get breed "temperament" JNull ;;
  life_span <~ py_get breed "life_span" JNull ;;
  alt_names <~ py_get breed "alt_names" (JStr EmptyString) ;;
  wikipedia_url <~ py_get breed "wikipedia_url" JNull ;;
  origin <~ py_get breed "origin" (JStr "Unknown") ;;
  weight <~ py_get breed "weight" (JDict []) ;;
  weight_metric <~ py_get weight "metric" (JStr "Unknown") ;;
  height <~ py_get breed "height" (JDict []) ;;
  height_metric <~ py_get height "metric" (JStr "Unknown") ;;
  bred_for <~ py_get breed "bred_for" (JStr "Unknown") ;;
  breed_group <~ py_get breed "breed_group" (JStr "Unknown") ;;
  reference_image_id <~ py_get breed "reference_image_id" JNull ;;
  inr [("id", id); ("name", name); ("temperament", temperament);
       ("life_span", life_span); ("alt_names", alt_names);
       ("wikipedia_url", wikipedia_url); ("origin", origin);
       ("weight_metric", weight_metric); ("height_metric", height_metric);
       ("bred_for", bred_for); ("breed_group", breed_group);
       ("reference_image_id", reference_image_id)].

Definition breeds_success (page : Z) (breeds : json) : E dict :=
  n <~ py_len breeds ;;
  let result := [("status", JStr "success"); ("count", JInt n);
                 ("page", JInt page); ("breeds", JList [])] in
  items <~ py_iter breeds ;;
  for_in items result
    (fun breed result =>
       info <~ breed_info breed ;;
       inr (dict_append "breeds" (JDict info) result)).

Definition breeds_body (limit page : Z) (search : option string) : M dict :=
  response <- client_get (breeds_request limit page search) ;;
  if status_code response =? 200 then
    breeds <- lift (response_json response) ;;
    lift (breeds_success (breeds_page page) breeds)
  else
    ret [("status", JStr "error");
         ("message", JStr ("Failed to fetch breeds with status "
                             ++ str_int (status_code response)));
         ("details", JStr (text response))].

Definition breeds_timeout_doc : dict :=
  [("status", JStr "error");
   ("message", JStr "Request timeout while fetching dog breeds");
   ("suggestion",
    JStr "Please try again with a smaller limit or check your connection")].

Definition get_dog_breeds_doc (limit page : Z) (search : option string)
  : M dict :=
  try_except (breeds_body limit page search)
    (fun e =>
       if is_timeout e then ret breeds_timeout_doc
       else generic_error "Error fetching dog breeds: " e).

Definition get_dog_breeds (limit page : Z) (search : option string)
  : M string :=
  serialized (get_dog_breeds_doc limit page search).

(** *** search_dog_images *)

Definition breed_search_request (breed_name : string) : Request :=
  {| url := DOG_API_BASE_URL ++ "/breeds/search";
     params := [("q", JStr breed_name)];
     headers := key_headers |}.

Definition search_limit (limit : Z) : Z := Z.min (Z.max 1 limit) 10.

Definition image_search_request (breed_id : json) (limit : Z)
    (has_breeds : bool) : Request :=
  {| url := DOG_API_BASE_URL ++ "/images/search";
     params := [("breed_ids", breed_id);
                ("limit", JInt (search_limit limit));
                ("has_breeds", JInt (if has_breeds then 1 else 0))];
     headers := key_headers |}.

Definition search_image_info (img : json) : E dict :=
  id <~ py_get img "id" JNull ;;
  u <~ py_get img "url" JNull ;;
  w <~ py_get img "width" JNull ;;
  h <~ py_get img "height" JNull ;;
  let image_info := [("id", id); ("url", u); ("width", w); ("height", h)] in
  c <~ has_breeds_entry img ;;
  if c then
    breeds <~ py_item img "breeds" ;;
    breed <~ py_index0 breeds ;;
    name <~ py_get breed "name" JNull ;;
    temperament <~ py_get breed "temperament" JNull ;;
    bred_for <~ py_get breed "bred_for" JNull ;;
    life_span <~ py_get breed "life_span" JNull ;;
    inr (dict_set "breed_details"
           (JDict [("name", name); ("temperament", temperament);
                   ("bred_for", bred_for); ("life_span", life_span)])
           image_info)
  else inr image_info.

Definition search_success (breed_name : string) (breeds images : json)
  : E dict :=
  first <~ py_index0 breeds ;;
  breed_found <~ py_item first "name" ;;
  n <~ py_len images ;;
  let result := [("status", JStr "success");
                 ("breed_searched", JStr breed_name);
                 ("breed_found", breed_found);
                 ("count", JInt n); ("images", JList [])] in
  items <~ py_iter images ;;
  for_in items result
    (fun img result =>
       image_info <~ search_image_info img ;;
       inr (dict_append "images" (JDict image_info) result)).

Definition search_failed_doc (breed_name : string) : dict :=
  [("status", JStr "error");
   ("message", JStr ("Failed to search for breed '" ++ breed_name ++ "'"));
   ("suggestion",
    JStr "Check the breed name spelling or try a different breed")].

Definition no_breeds_doc (breed_name : string) : dict :=
  [("status", JStr "error");
   ("message", JStr ("No breeds found matching '" ++ breed_name ++ "'"));
   ("suggestion",
    JStr "Try searching for popular breeds like 'Golden Retriever', 'Labrador', 'Poodle'")].

Definition search_body (breed_name : string) (limit : Z) (has_breeds : bool)
  : M dict :=
  breed_response <- client_get (breed_search_request breed_name) ;;
  if negb (status_code breed_response =? 200) then
    ret (search_failed_doc breed_name)
  else
    breeds <- lift (response_json breed_response) ;;
    if negb (truthy breeds) then ret (no_breeds_doc breed_name)
    else
      first <- lift (py_index0 breeds) ;;
      breed_id <- lift (py_item first "id") ;;
      response <- client_get (image_search_request breed_id limit has_breeds) ;;
      if status_code response =? 200 then
        images <- lift (response_json response) ;;
        lift (search_success breed_name breeds images)
      else
        ret [("status", JStr "error");
             ("message", JStr ("Failed to fetch images for " ++ breed_name));
             ("details", JStr (text response))].

Definition search_error_prefix (breed_name : string) : string :=
  "Error searching for " ++ breed_name ++ " images: ".

Definition search_dog_images_doc (breed_name : string) (limit : Z)
    (has_breeds : bool) : M dict :=
  try_except (search_body breed_name limit has_breeds)
    (fun e => generic_error (search_error_prefix breed_name) e).

Definition search_dog_images (breed_name : string) (limit : Z)
    (has_breeds : bool) : M string :=
  serialized (search_dog_images_doc breed_name limit has_breeds).

(** *** check_dog_api_status *)

Definition probe_request : Request :=
  {| url := DOG_API_BASE_URL ++ "/images/search?limit=1";
     params := [];
     headers := [] |}.

Definition auth_request (key : string) : Request :=
  {| url := DOG_API_BASE_URL ++ "/breeds";
     params := [];
     headers := [("x-api-key", key)] |}.

Definition configuration : json :=
  JDict [("timeout", JStr "10 seconds");
         ("max_images_per_request", JInt 10);
         ("supported_formats", JList [JStr "json"; JStr "src"])].

Definition troubleshooting : json :=
  JDict [("api_key_setup", JStr "Set DOG_API_KEY environment variable");
         ("get_api_key",
          JStr "Visit https://thedogapi.com to get a free API key");
         ("common_issues",
          JList [JStr "Check internet connection";
                 JStr "Verify API key is correct";
                 JStr "Ensure rate limits are not exceeded"])].

Definition status_body : M dict :=
  response <- client_get probe_request ;;
  timestamp <- datetime_now ;;
  let result := [("timestamp", JStr timestamp);
                 ("api_status", JStr "unknown");
                 ("api_key_configured", JBool (truthy_opt API_KEY));
                 ("base_url", JStr DOG_API_BASE_URL);
                 ("connectivity", JStr "unknown");
                 ("configuration", configuration)] in
  result <-
    (if status_code response =? 200 then
       let result := dict_set "api_status" (JStr "operational") result in
       let result := dict_set "connectivity" (JStr "successful") result in
       match API_KEY with
       | Some (String c k) =>
           auth_response <- client_get (auth_request (String c k)) ;;
           ret (dict_set "api_key_status"
                  (JStr (if status_code auth_response =? 200
                         then "valid" else "invalid"))
                  result)
       | _ =>
           let result :=
             dict_set "api_key_status" (JStr "not_configured") result in
           ret (dict_set "note"
                  (JStr "API key not set. Some features may be limited.")
                  result)
       end
     else
       let result := dict_set "api_status" (JStr "error") result in
       let result :=
         dict_set "connectivity"
           (JStr ("failed_with_status_" ++ str_int (status_code response)))
           result in
       ret (dict_set "error_details" (JStr (text response)) result)) ;;
  ret (dict_set "troubleshooting" troubleshooting result).

Definition status_timeout (e : exn) : M dict :=
  timestamp <- datetime_now ;;
  ret [("status", JStr "error");
       ("message", JStr "Connection timeout to The Dog API");
       ("troubleshooting",
        JDict [("suggestions",
                JList [JStr "Check your internet connection";
                       JStr "Try again in a few moments";
                       JStr "Verify The Dog API is operational"])]);
       ("timestamp", JStr timestamp)].

Definition check_dog_api_status_doc : M dict :=
  try_except status_body
    (fun e =>
       if is_timeout e then status_timeout e
       else generic_error "Failed to check API status: " e).

Definition check_dog_api_status : M string :=
  serialized (check_dog_api_status_doc).

End Tools.

(** ** Observing one invocation of a tool *)

(** The requests a tool sends when it is invoked, in order. *)
Definition requests {A} (c : M A) : list Request := sent (snd (c initial)).

(** What the invocation returns or raises. *)
Definition outcome_of {A} (c : M A) : E A := fst (c initial).

(** A field of the returned document. *)
Definition field (k : string) (c : M dict) : option json :=
  match outcome_of c with
  | inr doc => dict_get k doc
  | inl _ => None
  end.

(** The value of a query parameter in each request sent. *)
Definition sent_param {A} (k : string) (c : M A) : list (option json) :=
  map (fun r => dict_get k (params r)) (requests c).

(** The document says whether the call succeeded. *)
Definition has_status (doc : dict) : Prop :=
  dict_get "status" doc = Some (JStr "success") \/
  dict_get "status" doc = Some (JStr "error").

(** The status report of [check_dog_api_status]: an error document, or a
    report with no [status] field whose [api_status] tells the outcome. *)
Definition is_status_report (doc : dict) : Prop :=
  dict_get "status" doc = Some (JStr "error") \/
  (dict_get "status" doc = None /\
   (dict_get "api_status" doc = Some (JStr "operational") \/
    dict_get "api_status" doc = Some (JStr "error"))).

(** From every state the tool returns (it does not raise) the serialisation
    of one dictionary, and that dictionary satisfies [P]. *)
Definition tool_returns (doc_tool : M dict) (tool : M string)
    (P : dict -> Prop) : Prop :=
  forall s, exists doc s',
    doc_tool s = (inr doc, s') /\
    tool s = (inr (json_dumps (JDict doc)), s') /\
    P doc.

(** *** Image records of the upstream API, and the entry the specification
    asks for each of them *)

Definition object_or_absent (o : option json) : bool :=
  match o with
  | None | Some (JDict _) => true
  | Some _ => false
  end.

(** A breed record: an object whose [weight] and [height], when present, are
    objects. *)
Definition well_formed_breed (breed : json) : bool :=
  match breed with
  | JDict b =>
      object_or_absent (dict_get "weight" b)
      && object_or_absent (dict_get "height" b)
  | _ => false
  end.

(** An image record: an object whose [breeds], when present, is a list
    whose first element, if any, is a breed record (or is an empty value
    such as [null]). *)
Definition well_formed_image (img : json) : bool :=
  match img with
  | JDict d =>
      match dict_get "breeds" d with
      | None => true
      | Some (JList (breed :: _)) => well_formed_breed breed
      | Some v => negb (truthy v)
      end
  | _ => false
  end.

(** The specification's metric weight or height: "Unknown" when absent. *)
Definition spec_metric (k : string) (breed : dict) : json :=
  match dict_get k breed with
  | Some (JDict m) =>
      match dict_get "metric" m with
      | Some v => v
      | None => JStr "Unknown"
      end
  | _ => JStr "Unknown"
  end.

(** The specification's BreedSummary of a breed record. *)
Definition spec_breed_summary (breed : json) : json :=
  match breed with
  | JDict b =>
      JDict [("name", or_null (dict_get "name" b));
             ("temperament", or_null (dict_get "temperament" b));
             ("life_span", or_null (dict_get "life_span" b));
             ("weight", spec_metric "weight" b);
             ("height", spec_metric "height" b)]
  | _ => JNull
  end.

(** The specification's ImageResult for an upstream item: its four fields,
    and breed information exactly when the item's [breeds] list is present
    and not empty, taken from the first breed of that list. *)
Definition spec_image_entry (img entry : json) : Prop :=
  exists d e,
    img = JDict d /\ entry = JDict e /\
    dict_get "id" e = Some (or_null (dict_get "id" d)) /\
    dict_get "url" e = Some (or_null (dict_get "url" d)) /\
    dict_get "width" e = Some (or_null (dict_get "width" d)) /\
    dict_get "height" e = Some (or_null (dict_get "height" d)) /\
    (dict_has "breed" e = true <->
     exists breed rest, dict_get "breeds" d = Some (JList (breed :: rest))) /\
    (forall breed rest,
        dict_get "breeds" d = Some (JList (breed :: rest)) ->
        dict_get "breed" e = Some (spec_breed_summary breed)).

(** An upstream that answers the n-th request with the n-th outcome of a
    script, and a clock that always reads [ts]. *)
Definition scripted (script : list outcome) (ts : string) : Env :=
  {| http := fun s _ =>
       nth (List.length (sent s)) script
           (Raised (TransportError "All connection attempts failed"));
     now_isoformat := fun _ => ts |}.

Definition ok_response (v : json) : outcome :=
  Responded {| status_code := 200; text := json_dumps v; body := inr v |}.

Definition status_response (code : Z) (t : string) : outcome :=
  Responded {| status_code := code; text := t; body := inl "Expecting value" |}.

(** An upstream with no images. *)
Definition quiet : Env :=
  scripted [ok_response (JList [])] "2025-01-01T00:00:00".

(** An upstream that does not answer in time. *)
Definition slow : Env :=
  scripted [Raised (TimeoutException "timed out")] "2025-01-01T00:00:00".

(** An upstream that answers 503. *)
Definition unavailable : Env :=
  scripted [status_response 503 "Service Unavailable"] "2025-01-01T00:00:00".

Definition golden_breed : json :=
  JDict [("id", JInt 121); ("name", JStr "Golden Retriever");
         ("temperament", JStr "Intelligent, Kind, Friendly");
         ("life_span", JStr "10 - 12 years");
         ("weight", JDict [("imperial", JStr "55 - 75");
                           ("metric", JStr "25 - 34")])].

Definition golden_images : json :=
  JList [JDict [("id", JStr "HJ7Pzg5EQ"); ("url", JStr "https://cdn2.thedogapi.com/images/HJ7Pzg5EQ.jpg");
                ("width", JInt 1024); ("height", JInt 768);
                ("breeds", JList [golden_breed])];
         JDict [("id", JStr "Sk2FXx9EX"); ("url", JStr "https://cdn2.thedogapi.com/images/Sk2FXx9EX.jpg");
                ("breeds", JList [])]].

(** An upstream that knows one breed and has two images. *)
Definition golden : Env :=
  scripted [ok_response (JList [golden_breed]); ok_response golden_images]
    "2025-01-01T00:00:00".

(** An upstream that answers an image search with two images. *)
Definition gallery : Env :=
  scripted [ok_response golden_images] "2025-01-01T00:00:00".

(** An upstream whose image list holds [null] instead of an image record. *)
Definition broken : Env :=
  scripted [ok_response (JList [JNull])] "2025-01-01T00:00:00".

(** An upstream that finds the breed and then times out on the images. *)
Definition golden_then_slow : Env :=
  scripted [ok_response (JList [golden_breed]);
            Raised (TimeoutException "timed out")]
    "2025-01-01T00:00:00".

(** *** What the other branches of the tools produce *)

(** [b.get(k, dflt)] on a dictionary: the default stands in for an absent
    key only; a key present with [null] keeps its [null]. *)
Definition get_or (k : string) (dflt : json) (b : dict) : json :=
  match dict_get k b with
  | Some v => v
  | None => dflt
  end.

(** The entry of [get_dog_breeds] for a breed record. *)
Definition breed_record_entry (breed entry : json) : Prop :=
  exists b e,
    breed = JDict b /\ entry = JDict e /\
    map fst e = ["id"; "name"; "temperament"; "life_span"; "alt_names";
                 "wikipedia_url"; "origin"; "weight_metric"; "height_metric";
                 "bred_for"; "breed_group"; "reference_image_id"] /\
    dict_get "id" e = Some (get_or "id" JNull b) /\
    dict_get "name" e = Some (get_or "name" JNull b) /\
    dict_get "temperament" e = Some (get_or "temperament" JNull b) /\
    dict_get "life_span" e = Some (get_or "life_span" JNull b) /\
    dict_get "alt_names" e = Some (get_or "alt_names" (JStr EmptyString) b) /\
    dict_get "wikipedia_url" e = Some (get_or "wikipedia_url" JNull b) /\
    dict_get "origin" e = Some (get_or "origin" (JStr "Unknown") b) /\
    dict_get "weight_metric" e = Some (spec_metric "weight" b) /\
    dict_get "height_metric" e = Some (spec_metric "height" b) /\
    dict_get "bred_for" e = Some (get_or "bred_for" (JStr "Unknown") b) /\
    dict_get "breed_group" e = Some (get_or "breed_group" (JStr "Unknown") b) /\
    dict_get "reference_image_id" e = Some (get_or "reference_image_id" JNull b).



(** A computation that raises, if at all, something other than a timeout. *)
Definition no_timeout {A} (c : E A) : Prop :=
  forall e, c = inl e -> is_timeout e = false.

(** The [except Exception] document, with the prefix of the tool. *)
Definition generic_doc (env : Env) (prefix : string) (e : exn) (s : State)
  : dict :=
  [("status", JStr "error");
   ("message", JStr (prefix ++ str_exn e));
   ("timestamp", JStr (now_isoformat env s))].

(** An upstream that finds the breed and answers 503 on the images. *)
Definition golden_then_unavailable : Env :=
  scripted [ok_response (JList [golden_breed]);
            status_response 503 "Service Unavailable"]
    "2025-01-01T00:00:00".

(** An upstream that answers the probe and rejects the key. *)
Definition key_rejected : Env :=
  scripted [ok_response (JList []); status_response 401 "Unauthorized"]
    "2025-01-01T00:00:00".

(** An upstream whose only match has a name and no id. *)
Definition nameless_id : Env :=
  scripted [ok_response (JList [JDict [("name", JStr "Mutt")]])]
    "2025-01-01T00:00:00".

(** An upstream that cannot be reached. *)
Definition unreachable : Env := scripted [] "2025-01-01T00:00:00".

(** *** The configuration resource *)

(** The dictionary of the resource [config://dog-api]. *)
Definition dog_api_config_doc : dict :=
  [("api_name", JStr "The Dog API");
   ("provider", JStr "That API Company");
   ("base_url", JStr DOG_API_BASE_URL);
   ("documentation", JStr "https://docs.thedogapi.com/");
   ("features",
    JDict [("random_images", JStr "Get random dog images with breed filtering");
           ("breed_search", JStr "Search and list dog breeds with detailed info");
           ("image_search", JStr "Find images by specific breed name");
           ("breed_info", JStr "Detailed breed characteristics and temperament")]);
   ("authentication",
    JDict [("type", JStr "API Key");
           ("header", JStr "x-api-key");
           ("required", JStr "Optional (some features limited without key)");
           ("signup", JStr "https://thedogapi.com")]);
   ("rate_limits",
    JDict [("free_tier", JStr "1000 requests per month");
           ("with_api_key", JStr "Higher limits available")]);
   ("supported_formats", JList [JStr "json"; JStr "src"]);
   ("max_images_per_request", JInt 10);
   ("setup_instructions",
    JList [JStr "1. Visit https://thedogapi.com";
           JStr "2. Sign up for a free account";
           JStr "3. Get your API key from the dashboard";
           JStr "4. Set DOG_API_KEY environment variable";
           JStr "5. Restart the MCP server"])].

(** [dog_api_config(context)]: no request, no clock, no key. *)
Definition dog_api_config : M string :=
  ret (json_dumps (JDict dog_api_config_doc)).

(** The request is sent by one of the four tools, on some arguments. *)
Definition sent_by_a_tool (env : Env) (key : option string) (req : Request)
  : Prop :=
  (exists breed_id category_ids format limit,
      In req (requests (get_random_dog_image env key breed_id category_ids
                          format limit))) \/
  (exists limit page search,
      In req (requests (get_dog_breeds env key limit page search))) \/
  (exists breed_name limit has_breeds,
      In req (requests (search_dog_images env key breed_name limit has_breeds))) \/
  In req (requests (check_dog_api_status env key)).

(** *** The outcomes of [check_dog_api_status] *)

(** The state in which the key check is sent: the probe is logged and the
    clock has been read for the timestamp. *)
Definition after_probe (s : State) : State :=
  {| sent := sent s ++ [probe_request]; clock_reads := S (clock_reads s) |}.

(** Run from [s], the tool returns an error document: status "error" and
    nothing of the report. *)
Definition status_error_at (env : Env) (key : option string) (s : State)
  : Prop :=
  exists doc s',
    check_dog_api_status_doc env key s = (inr doc, s') /\
    dict_get "status" doc = Some (JStr "error") /\
    dict_get "api_status" doc = None.

(** Run from [s], the tool returns a report: no [status] field, and the
    outcome in [api_status]. *)
Definition status_report_at (env : Env) (key : option string) (s : State)
    (api_status : string) : Prop :=
  exists doc s',
    check_dog_api_status_doc env key s = (inr doc, s') /\
    dict_get "status" doc = None /\
    dict_get "api_status" doc = Some (JStr api_status).

(** An image whose first breed has [null] for its weight. *)
Definition weightless_image : json :=
  JDict [("id", JStr "B1uW7l5VX"); ("url", JStr "https://cdn2.thedogapi.com/images/B1uW7l5VX.jpg");
         ("width", JInt 800); ("height", JInt 600);
         ("breeds", JList [JDict [("name", JStr "Mutt");
                                  ("weight", JNull)]])].

(** An upstream that answers the image search with that one image. *)
Definition weightless : Env :=
  scripted [ok_response (JList [weightless_image])] "2025-01-01T00:00:00".

(** * Properties *)

Example dumps_nested :
  json_dumps (JDict [("n", JList [JInt (-3); JNull]); ("e", JList [])])
  = String "{" (newline_indent 1) ++ quote "n" ++ ": ["
    ++ newline_indent 2 ++ "-3," ++ newline_indent 2 ++ "null"
    ++ newline_indent 1 ++ "]," ++ newline_indent 1 ++ quote "e" ++ ": []"
    ++ newline_indent 0 ++ "}".
Proof. reflexivity. Qed.

Ltac run_tool :=
  cbv [requests outcome_of field sent_param
       get_random_dog_image get_random_dog_image_doc random_body
       get_dog_breeds get_dog_breeds_doc breeds_body
       search_dog_images search_dog_images_doc search_body
       check_dog_api_status check_dog_api_status_doc status_body
       generic_error status_timeout datetime_now serialized
       bind try_except client_get after_request ret lift].

Ltac case_outcome :=
  match goal with
  | |- context [http ?e ?s ?r] =>
      let H := fresh "Hhttp" in
      let resp := fresh "response" in
      let err := fresh "err" in
      destruct (http e s r) as [resp|err] eqn:H
  | |- context [if (?a =? ?b) then _ else _] =>
      let H := fresh "Hcode" in destruct (a =? b) eqn:H
  | |- context [if negb (?a =? ?b) then _ else _] =>
      let H := fresh "Hcode" in destruct (a =? b) eqn:H
  end.

(** The tools on concrete upstreams. *)

Example random_gallery :
  outcome_of (get_random_dog_image_doc gallery None None None "json" 2)
  = inr [("status", JStr "success"); ("count", JInt 2);
         ("images",
          JList
            [JDict [("id", JStr "HJ7Pzg5EQ");
                    ("url", JStr "https://cdn2.thedogapi.com/images/HJ7Pzg5EQ.jpg");
                    ("width", JInt 1024); ("height", JInt 768);
                    ("breed",
                     JDict [("name", JStr "Golden Retriever");
                            ("temperament", JStr "Intelligent, Kind, Friendly");
                            ("life_span", JStr "10 - 12 years");
                            ("weight", JStr "25 - 34");
                            ("height", JStr "Unknown")])];
             JDict [("id", JStr "Sk2FXx9EX");
                    ("url", JStr "https://cdn2.thedogapi.com/images/Sk2FXx9EX.jpg");
                    ("width", JNull); ("height", JNull)]])].
Proof. reflexivity. Qed.

(** An item that is not an image record makes [img.get] raise; the generic
    handler turns that into an error document. *)
Example random_broken :
  outcome_of (get_random_dog_image_doc broken None None None "json" 1)
  = inr [("status", JStr "error");
         ("message",
          JStr "Unexpected error: 'NoneType' object has no attribute 'get'");
         ("timestamp", JStr "2025-01-01T00:00:00")].
Proof. reflexivity. Qed.

Example search_golden_requests :
  requests (search_dog_images golden (Some "k") "golden" 50 true)
  = [ {| url := "https://api.thedogapi.com/v1/breeds/search";
         params := [("q", JStr "golden")];
         headers := [("x-api-key", "k")] |};
      {| url := "https://api.thedogapi.com/v1/images/search";
         params := [("breed_ids", JInt 121); ("limit", JInt 10);
                    ("has_breeds", JInt 1)];
         headers := [("x-api-key", "k")] |} ].
Proof. reflexivity. Qed.

Example status_with_key_requests :
  requests (check_dog_api_status golden (Some "k"))
  = [ {| url := "https://api.thedogapi.com/v1/images/search?limit=1";
         params := []; headers := [] |};
      {| url := "https://api.thedogapi.com/v1/breeds";
         params := []; headers := [("x-api-key", "k")] |} ]
  /\ field "api_key_status" (check_dog_api_status_doc golden (Some "k"))
     = Some (JStr "valid").
Proof. split; reflexivity. Qed.

Lemma serialized_outcome (c : M dict) (doc : dict) :
  outcome_of c = inr doc ->
  outcome_of (serialized c) = inr (json_dumps (JDict doc)).
Proof.
  unfold outcome_of, serialized, bind, ret.
  destruct (c initial) as [[e|d] s']; simpl; congruence.
Qed.

Lemma serialized_requests (c : M dict) :
  requests (serialized c) = requests c.
Proof.
  unfold requests, serialized, bind, ret.
  destruct (c initial) as [[e|d] s']; reflexivity.
Qed.

Lemma random_limit_outside (limit : Z) :
  limit < 1 \/ 10 < limit -> random_limit limit = 1.
Proof.
  intros H. unfold random_limit.
  destruct (limit <? 1) eqn:L1; [reflexivity|].
  destruct (limit >? 10) eqn:L2; [reflexivity|].
  apply Z.ltb_ge in L1. rewrite Z.gtb_ltb in L2. apply Z.ltb_ge in L2. lia.
Qed.

Lemma random_limit_inside (limit : Z) :
  1 <= limit <= 10 -> random_limit limit = limit.
Proof.
  intros H. unfold random_limit.
  replace (limit <? 1) with false by (symmetry; apply Z.ltb_ge; lia).
  rewrite Z.gtb_ltb.
  replace (10 <? limit) with false by (symmetry; apply Z.ltb_ge; lia).
  reflexivity.
Qed.

Lemma dict_get_set_other (k k' : string) (v : json) (d : dict) :
  String.eqb k k' = false -> dict_get k (dict_set k' v d) = dict_get k d.
Proof.
  intros Hk. induction d as [|[k0 v0] d IH]; simpl.
  - now rewrite Hk.
  - destruct (String.eqb k' k0) eqn:E0; simpl.
    + apply String.eqb_eq in E0. subst k0. now rewrite Hk.
    + destruct (String.eqb k k0); [reflexivity | exact IH].
Qed.

Lemma dict_get_set_same (k : string) (v : json) (d : dict) :
  dict_get k (dict_set k v d) = Some v.
Proof.
  induction d as [|[k0 v0] d IH]; simpl.
  - now rewrite String.eqb_refl.
  - destruct (String.eqb k k0) eqn:E0; simpl; rewrite E0; [reflexivity | exact IH].
Qed.

Lemma dict_get_set_if_given_other (k k' : string) (o : option string) (d : dict) :
  String.eqb k k' = false -> dict_get k (set_if_given k' o d) = dict_get k d.
Proof.
  intros Hk. unfold set_if_given.
  destruct o as [s|]; [|reflexivity].
  destruct (truthy_opt (Some s)); [|reflexivity].
  now apply dict_get_set_other.
Qed.

Lemma random_sends_one_request env key breed_id category_ids format limit :
  requests (get_random_dog_image env key breed_id category_ids format limit)
  = [random_request key breed_id category_ids format limit].
Proof.
  run_tool.
  case_outcome; [case_outcome|]; simpl.
  - destruct (response_json response) as [e|data]; simpl;
      [destruct (is_timeout e); reflexivity|].
    destruct (random_success data) as [e|doc]; simpl;
      [destruct (is_timeout e); reflexivity | reflexivity].
  - reflexivity.
  - destruct (is_timeout err); reflexivity.
Qed.

Lemma random_limit_param key breed_id category_ids format limit :
  dict_get "limit" (params (random_request key breed_id category_ids format limit))
  = Some (JInt (random_limit limit)).
Proof.
  unfold random_request, random_params; simpl params.
  rewrite !dict_get_set_if_given_other by reflexivity.
  reflexivity.
Qed.

(** C3: [get_random_dog_image] sends exactly one upstream query; its [limit]
    parameter is 1 for every input outside [1,10] (reset, not clamped to the
    nearest bound) and the input itself for every input inside [1,10]. *)
Theorem random_image_limit_reset
    env key breed_id category_ids format (limit : Z) :
  let tool := get_random_dog_image env key breed_id category_ids format limit in
  (limit < 1 \/ 10 < limit -> sent_param "limit" tool = [Some (JInt 1)]) /\
  (1 <= limit <= 10 -> sent_param "limit" tool = [Some (JInt limit)]).
Proof.
  intros tool. subst tool. unfold sent_param.
  rewrite random_sends_one_request. cbn [map]. rewrite random_limit_param.
  split; intros H.
  - now rewrite random_limit_outside.
  - now rewrite random_limit_inside.
Qed.

Lemma random_image_limit_reset_witness :
  sent_param "limit" (get_random_dog_image quiet None None None "json" 11)
    = [Some (JInt 1)] /\
  sent_param "limit" (get_random_dog_image quiet None None None "json" 10)
    = [Some (JInt 10)].
Proof.
  split.
  - apply (random_image_limit_reset quiet None None None "json" 11). lia.
  - apply (random_image_limit_reset quiet None None None "json" 10). lia.
Defined.

Lemma breeds_limit_outside (limit : Z) :
  limit < 1 \/ 100 < limit -> breeds_limit limit = 10.
Proof.
  intros H. unfold breeds_limit. rewrite Z.gtb_ltb.
  destruct (Z.ltb_spec limit 1); [reflexivity|].
  destruct (Z.ltb_spec 100 limit); [reflexivity | lia].
Qed.

Lemma breeds_limit_inside (limit : Z) :
  1 <= limit <= 100 -> breeds_limit limit = limit.
Proof.
  intros H. unfold breeds_limit. rewrite Z.gtb_ltb.
  destruct (Z.ltb_spec limit 1); [lia|].
  destruct (Z.ltb_spec 100 limit); [lia | reflexivity].
Qed.

Lemma breeds_sends_one_request env key limit page search :
  requests (get_dog_breeds env key limit page search)
  = [breeds_request key limit page search].
Proof.
  run_tool.
  case_outcome; [case_outcome|]; simpl.
  - destruct (response_json response) as [e|data]; simpl;
      [destruct (is_timeout e); reflexivity|].
    destruct (breeds_success (breeds_page page) data) as [e|doc]; simpl;
      [destruct (is_timeout e); reflexivity | reflexivity].
  - reflexivity.
  - destruct (is_timeout err); reflexivity.
Qed.

Lemma breeds_sent_params key limit page search :
  dict_get "limit" (params (breeds_request key limit page search))
    = Some (JInt (breeds_limit limit)) /\
  dict_get "page" (params (breeds_request key limit page search))
    = Some (JInt (breeds_page page)).
Proof.
  unfold breeds_request, breeds_params; cbn [params].
  rewrite !dict_get_set_if_given_other by reflexivity.
  split; reflexivity.
Qed.

(** C5: [get_dog_breeds] sends exactly one upstream query; its [limit] is 10
    for every input outside [1,100] and the input inside it, and its [page]
    is 0 for every negative input and the input otherwise. *)
Theorem breeds_limit_page_reset env key (limit page : Z) search :
  let tool := get_dog_breeds env key limit page search in
  (limit < 1 \/ 100 < limit -> sent_param "limit" tool = [Some (JInt 10)]) /\
  (1 <= limit <= 100 -> sent_param "limit" tool = [Some (JInt limit)]) /\
  (page < 0 -> sent_param "page" tool = [Some (JInt 0)]) /\
  (0 <= page -> sent_param "page" tool = [Some (JInt page)]).
Proof.
  intros tool. subst tool. unfold sent_param.
  rewrite breeds_sends_one_request. cbn [map].
  destruct (breeds_sent_params key limit page search) as [-> ->].
  split; [|split; [|split]]; intros H.
  - now rewrite breeds_limit_outside.
  - now rewrite breeds_limit_inside.
  - unfold breeds_page. destruct (Z.ltb_spec page 0); [reflexivity | lia].
  - unfold breeds_page. destruct (Z.ltb_spec page 0); [lia | reflexivity].
Qed.

Lemma breeds_limit_page_reset_witness :
  sent_param "limit" (get_dog_breeds quiet None 101 0 None) = [Some (JInt 10)] /\
  sent_param "limit" (get_dog_breeds quiet None 100 0 None) = [Some (JInt 100)] /\
  sent_param "page" (get_dog_breeds quiet None 10 (-1) None) = [Some (JInt 0)] /\
  sent_param "page" (get_dog_breeds quiet None 10 7 None) = [Some (JInt 7)].
Proof.
  split; [|split; [|split]].
  - apply (breeds_limit_page_reset quiet None 101 0 None). lia.
  - apply (breeds_limit_page_reset quiet None 100 0 None). lia.
  - apply (breeds_limit_page_reset quiet None 10 (-1) None). lia.
  - apply (breeds_limit_page_reset quiet None 10 7 None). lia.
Defined.

(** C10: an empty string given for [breed_id], [category_ids] or [search] is
    left out of the query entirely: the request that is sent has no
    [breed_ids], [category_ids] or [q] parameter (with all filters empty its
    parameters are just [limit] and [format], or [limit] and [page]), and
    the request, and with it the whole run of the tool, is the one of a
    call that passes no value. *)
Theorem empty_string_is_absent env key breed_id category_ids format
    (limit page : Z) (s : State) :
  random_request key (Some EmptyString) category_ids format limit
    = random_request key None category_ids format limit /\
  random_request key breed_id (Some EmptyString) format limit
    = random_request key breed_id None format limit /\
  breeds_request key limit page (Some EmptyString)
    = breeds_request key limit page None /\
  get_random_dog_image env key (Some EmptyString) category_ids format limit s
    = get_random_dog_image env key None category_ids format limit s /\
  get_random_dog_image env key breed_id (Some EmptyString) format limit s
    = get_random_dog_image env key breed_id None format limit s /\
  get_dog_breeds env key limit page (Some EmptyString) s
    = get_dog_breeds env key limit page None s /\
  sent_param "breed_ids"
    (get_random_dog_image env key (Some EmptyString) category_ids format limit)
    = [None] /\
  sent_param "category_ids"
    (get_random_dog_image env key breed_id (Some EmptyString) format limit)
    = [None] /\
  sent_param "q" (get_dog_breeds env key limit page (Some EmptyString))
    = [None] /\
  map (fun req => map fst (params req))
    (requests (get_random_dog_image env key (Some EmptyString)
                 (Some EmptyString) format limit))
    = [["limit"; "format"]] /\
  map (fun req => map fst (params req))
    (requests (get_dog_breeds env key limit page (Some EmptyString)))
    = [["limit"; "page"]].
Proof.
  do 6 (split; [reflexivity|]).
  unfold sent_param.
  rewrite !random_sends_one_request, !breeds_sends_one_request. cbn [map].
  split; [|split; [|split; [|split]]]; try reflexivity.
  - unfold random_request, random_params. cbn [params].
    rewrite dict_get_set_if_given_other by reflexivity. reflexivity.
  - unfold random_request, random_params. cbn [params].
    change (set_if_given "category_ids" (Some EmptyString) ?d) with d.
    rewrite dict_get_set_if_given_other by reflexivity. reflexivity.
Qed.

Ltac split_cases :=
  repeat (first
    [ case_outcome
    | match goal with
      | |- context [match ?x with _ => _ end] =>
          match type of x with
          | E _ => destruct x eqn:?
          | bool => destruct x eqn:?
          | sum _ _ => destruct x eqn:?
          end
      end ]; cbn [fst snd sent clock_reads app]).

Lemma search_requests env key breed_name limit has_breeds :
  let rs := requests (search_dog_images env key breed_name limit has_breeds) in
  rs = [breed_search_request key breed_name] \/
  exists breed_id,
    rs = [breed_search_request key breed_name;
          image_search_request key breed_id limit has_breeds].
Proof.
  intros rs; subst rs. run_tool.
  split_cases; try (left; reflexivity); right; eexists; reflexivity.
Qed.

Lemma search_limit_is_clamp (limit : Z) :
  search_limit limit = Z.max 1 (Z.min limit 10).
Proof. unfold search_limit. lia. Qed.

(** C4: whatever [limit] is given to [search_dog_images], the image-search
    query it sends carries [max(1, min(limit, 10))]. *)
Theorem search_limit_clamped env key breed_name (limit : Z) has_breeds req :
  In req (requests (search_dog_images env key breed_name limit has_breeds)) ->
  url req = DOG_API_BASE_URL ++ "/images/search" ->
  dict_get "limit" (params req) = Some (JInt (Z.max 1 (Z.min limit 10))).
Proof.
  intros Hin Hurl.
  destruct (search_requests env key breed_name limit has_breeds)
    as [Hrs | [breed_id Hrs]]; rewrite Hrs in Hin; simpl in Hin.
  - destruct Hin as [<- | []]. discriminate Hurl.
  - destruct Hin as [<- | [<- | []]]; [discriminate Hurl|].
    cbn [params image_search_request dict_get String.eqb Ascii.eqb Bool.eqb].
    now rewrite search_limit_is_clamp.
Qed.

Lemma search_limit_clamped_witness :
  dict_get "limit" (params (image_search_request None (JInt 121) 25 true))
  = Some (JInt 10).
Proof.
  apply (search_limit_clamped golden None "golden" 25 true).
  - right; left; reflexivity.
  - reflexivity.
Defined.



Lemma is_prefix_app (p s : string) : is_prefix p (p ++ s) = true.
Proof.
  induction p as [|a p IH]; simpl; [reflexivity|].
  now rewrite Ascii.eqb_refl, IH.
Qed.

Lemma contains_app (a x b : string) : contains x (a ++ x ++ b) = true.
Proof.
  induction a as [|c a IH].
  - cbn [append]. destruct (x ++ b) eqn:Hx; cbn [contains];
      rewrite <- Hx, is_prefix_app; reflexivity.
  - cbn [append contains]. rewrite IH. apply orb_true_r.
Qed.

(** C6: when the breed-name search answers HTTP 200 with an empty list,
    [search_dog_images] returns an error document whose [message] names the
    searched breed and whose [suggestion] offers example breed names, and
    the breed search is the only request sent: nothing goes to the
    image-search endpoint. *)
Theorem search_no_match env key breed_name limit has_breeds r :
  http env initial (breed_search_request key breed_name) = Responded r ->
  status_code r = 200 ->
  body r = inr (JList []) ->
  exists doc message,
    outcome_of (search_dog_images_doc env key breed_name limit has_breeds)
      = inr doc /\
    outcome_of (search_dog_images env key breed_name limit has_breeds)
      = inr (json_dumps (JDict doc)) /\
    dict_get "status" doc = Some (JStr "error") /\
    dict_get "message" doc = Some (JStr message) /\
    message = "No breeds found matching '" ++ breed_name ++ "'" /\
    contains breed_name message = true /\
    dict_get "suggestion" doc
      = Some (JStr "Try searching for popular breeds like 'Golden Retriever', 'Labrador', 'Poodle'") /\
    requests (search_dog_images env key breed_name limit has_breeds)
      = [breed_search_request key breed_name] /\
    (forall req,
        In req (requests (search_dog_images env key breed_name limit has_breeds)) ->
        url req <> DOG_API_BASE_URL ++ "/images/search").
Proof.
  intros Hhttp Hcode Hbody.
  exists (no_breeds_doc breed_name),
         ("No breeds found matching '" ++ breed_name ++ "'").
  assert (Hreq : requests (search_dog_images env key breed_name limit has_breeds)
                 = [breed_search_request key breed_name]).
  { run_tool. rewrite Hhttp. cbn. rewrite Hcode. cbn.
    unfold response_json. rewrite Hbody. reflexivity. }
  assert (Hdoc : outcome_of (search_dog_images_doc env key breed_name limit has_breeds)
                 = inr (no_breeds_doc breed_name)).
  { run_tool. rewrite Hhttp. cbn. rewrite Hcode. cbn.
    unfold response_json. rewrite Hbody. reflexivity. }
  split; [exact Hdoc|].
  split; [apply serialized_outcome, Hdoc|].
  repeat (split; [reflexivity|]).
  split; [apply (contains_app "No breeds found matching '" breed_name "'")|].
  split; [reflexivity|].
  split; [exact Hreq|].
  intros req Hin. rewrite Hreq in Hin. destruct Hin as [<- | []].
  discriminate.
Qed.

Lemma search_no_match_witness :
  exists doc,
    outcome_of (search_dog_images_doc quiet None "Husky" 5 true) = inr doc /\
    dict_get "status" doc = Some (JStr "error") /\
    requests (search_dog_images quiet None "Husky" 5 true)
      = [breed_search_request None "Husky"].
Proof.
  destruct (search_no_match quiet None "Husky" 5 true
              {| status_code := 200; text := "[]"; body := inr (JList []) |}
              eq_refl eq_refl eq_refl) as [doc [message H]].
  exists doc. repeat split; apply H.
Defined.

Lemma status_probe_first env key :
  nth_error (requests (check_dog_api_status_doc env key)) 0 = Some probe_request.
Proof.
  run_tool. destruct key as [[|c k]|]; split_cases; reflexivity.
Qed.

(** C9 (as the code has it): with no API key configured,
    [check_dog_api_status] sends exactly one request, the probe, which
    carries no header at all (also when a key is configured, the first
    request is that same probe); the document reports [api_key_status]
    "not_configured" when the probe answers HTTP 200, and has no
    [api_key_status] field when the probe answers another status or
    raises. *)
Theorem status_without_key env key :
  truthy_opt key = false ->
  let tool := check_dog_api_status_doc env key in
  requests tool = [probe_request] /\
  requests (check_dog_api_status env key) = [probe_request] /\
  headers probe_request = [] /\
  (forall any_key,
      nth_error (requests (check_dog_api_status_doc env any_key)) 0
      = Some probe_request) /\
  (forall r, http env initial probe_request = Responded r ->
             status_code r = 200 ->
             field "api_key_status" tool = Some (JStr "not_configured") /\
             field "api_key_configured" tool = Some (JBool false)) /\
  (forall r, http env initial probe_request = Responded r ->
             status_code r <> 200 ->
             field "api_key_status" tool = None) /\
  (forall e, http env initial probe_request = Raised e ->
             field "api_key_status" tool = None).
Proof.
  intros Hkey tool. subst tool.
  assert (Hreq : requests (check_dog_api_status_doc env key) = [probe_request]).
  { run_tool. destruct key as [[|c k]|]; try discriminate Hkey;
      split_cases; reflexivity. }
  split; [exact Hreq|].
  split; [unfold check_dog_api_status; now rewrite serialized_requests|].
  split; [reflexivity|].
  split; [intros any_key; apply status_probe_first|].
  split; [|split].
  - intros r Hhttp Hcode. run_tool. rewrite Hhttp. cbn.
    rewrite Hcode. destruct key as [[|c k]|]; try discriminate Hkey;
      split; reflexivity.
  - intros r Hhttp Hcode. run_tool. rewrite Hhttp. cbn.
    apply Z.eqb_neq in Hcode. rewrite Hcode.
    destruct key as [[|c k]|]; try discriminate Hkey; reflexivity.
  - intros e Hhttp. run_tool. rewrite Hhttp. cbn.
    destruct (is_timeout e); reflexivity.
Qed.

Lemma status_without_key_witness :
  requests (check_dog_api_status_doc quiet None) = [probe_request] /\
  field "api_key_status" (check_dog_api_status_doc quiet None)
    = Some (JStr "not_configured").
Proof.
  pose proof (status_without_key quiet None eq_refl) as H.
  split; [apply H|].
  apply (proj1 (proj2 (proj2 (proj2 (proj2 H)))))
    with (r := {| status_code := 200; text := json_dumps (JList []);
                  body := inr (JList []) |}); reflexivity.
Defined.

(** C9 as stated fails: with no key configured and a probe answered with
    HTTP 503, the document carries no key status at all. *)
Lemma status_probe_failed_no_key_status :
  truthy_opt None = false /\
  (exists doc, outcome_of (check_dog_api_status_doc unavailable None) = inr doc) /\
  field "api_key_status" (check_dog_api_status_doc unavailable None)
    <> Some (JStr "not_configured").
Proof.
  split; [reflexivity|]. split; [eexists; reflexivity|].
  cbv. discriminate.
Qed.

(** C8: whatever exception is raised inside [search_dog_images] (a timeout
    of the breed search or of the image search included), the tool returns
    the generic error document: status "error", a message ending in
    [str(e)], and the timestamp read when the exception is handled. No
    exception gets a document of another shape. *)
Theorem search_exception_generic env key breed_name limit has_breeds :
  let doc_tool := search_dog_images_doc env key breed_name limit has_breeds in
  let tool := search_dog_images env key breed_name limit has_breeds in
  let generic e s :=
    [("status", JStr "error");
     ("message",
      JStr (("Error searching for " ++ breed_name ++ " images: ") ++ str_exn e));
     ("timestamp", JStr (now_isoformat env s))] in
  let s1 := after_request initial (breed_search_request key breed_name) in
  (forall e s,
      search_body env key breed_name limit has_breeds initial = (inl e, s) ->
      outcome_of doc_tool = inr (generic e s) /\
      outcome_of tool = inr (json_dumps (JDict (generic e s)))) /\
  (forall e,
      http env initial (breed_search_request key breed_name) = Raised e ->
      outcome_of doc_tool = inr (generic e s1)) /\
  (forall r breeds first breed_id e,
      http env initial (breed_search_request key breed_name) = Responded r ->
      status_code r = 200 ->
      body r = inr breeds ->
      py_index0 breeds = inr first ->
      py_item first "id" = inr breed_id ->
      http env s1 (image_search_request key breed_id limit has_breeds)
        = Raised e ->
      outcome_of doc_tool
      = inr (generic e
               (after_request s1
                  (image_search_request key breed_id limit has_breeds)))).
Proof.
  intros doc_tool tool generic s1.
  assert (Hgen : forall e s,
             search_body env key breed_name limit has_breeds initial = (inl e, s) ->
             outcome_of doc_tool = inr (generic e s)).
  { intros e s Hbody. subst doc_tool.
    unfold outcome_of, search_dog_images_doc, try_except.
    rewrite Hbody. reflexivity. }
  split; [|split].
  - intros e s Hbody. split; [now apply Hgen|].
    apply serialized_outcome. now apply Hgen.
  - intros e Hhttp. apply Hgen.
    unfold search_body, bind, client_get. rewrite Hhttp. reflexivity.
  - intros r breeds first breed_id e Hhttp Hcode Hbody Hfirst Hid Hhttp2.
    apply Hgen.
    assert (Htruthy : truthy breeds = true).
    { destruct breeds as [| | | |[|]|[|]|]; try discriminate Hfirst; reflexivity. }
    unfold search_body, bind, client_get, after_request, lift, response_json.
    rewrite Hhttp. cbn. rewrite Hcode. cbn. rewrite Hbody, Htruthy. cbn.
    rewrite Hfirst, Hid.
    unfold s1, after_request, initial in Hhttp2.
    cbn [sent clock_reads app] in Hhttp2. rewrite Hhttp2. reflexivity.
Qed.

Lemma search_exception_generic_witness :
  outcome_of (search_dog_images_doc slow None "Poodle" 5 true)
    = inr [("status", JStr "error");
           ("message", JStr "Error searching for Poodle images: timed out");
           ("timestamp", JStr "2025-01-01T00:00:00")] /\
  outcome_of (search_dog_images_doc golden_then_slow None "golden" 5 true)
    = inr [("status", JStr "error");
           ("message", JStr "Error searching for golden images: timed out");
           ("timestamp", JStr "2025-01-01T00:00:00")].
Proof.
  split.
  - apply (proj1 (proj2 (search_exception_generic slow None "Poodle" 5 true))
             (TimeoutException "timed out")).
    reflexivity.
  - apply (proj2 (proj2 (search_exception_generic golden_then_slow None
                           "golden" 5 true))
             {| status_code := 200;
                text := json_dumps (JList [golden_breed]);
                body := inr (JList [golden_breed]) |}
             (JList [golden_breed]) golden_breed (JInt 121)
             (TimeoutException "timed out")); reflexivity.
Defined.

Lemma tool_returns_serialized (c : M dict) (P : dict -> Prop) :
  (forall s, exists doc s', c s = (inr doc, s') /\ P doc) ->
  tool_returns c (serialized c) P.
Proof.
  intros H s. destruct (H s) as (doc & s' & Hc & HP).
  exists doc, s'. unfold serialized, bind, ret. rewrite Hc. auto.
Qed.

Lemma dict_get_append_other (k k' : string) (x : json) (d : dict) :
  String.eqb k k' = false -> dict_get k (dict_append k' x d) = dict_get k d.
Proof.
  intros Hk. unfold dict_append.
  destruct (dict_get k' d) as [[]|]; try reflexivity.
  now apply dict_get_set_other.
Qed.

(** A loop that only appends to [result[key]] leaves the other fields. *)
Lemma for_in_append_keeps (f : json -> E dict) (key k : string) :
  String.eqb k key = false ->
  forall items acc res,
    for_in items acc
      (fun x result => info <~ f x ;; inr (dict_append key (JDict info) result))
    = inr res ->
    dict_get k res = dict_get k acc.
Proof.
  intros Hk. induction items as [|x items IH]; intros acc res Hrun.
  - simpl in Hrun. congruence.
  - simpl in Hrun. destruct (f x) as [e|info]; simpl in Hrun; [discriminate|].
    rewrite (IH _ _ Hrun). now apply dict_get_append_other.
Qed.

Lemma random_success_status data doc :
  random_success data = inr doc -> dict_get "status" doc = Some (JStr "success").
Proof.
  unfold random_success. intros H.
  destruct (py_len data) as [e|n]; [discriminate|].
  destruct (py_iter data) as [e|items]; [discriminate|]. simpl in H.
  now rewrite (for_in_append_keeps _ "images" "status" eq_refl _ _ _ H).
Qed.

Lemma breeds_success_status page data doc :
  breeds_success page data = inr doc ->
  dict_get "status" doc = Some (JStr "success").
Proof.
  unfold breeds_success. intros H.
  destruct (py_len data) as [e|n]; [discriminate|].
  destruct (py_iter data) as [e|items]; [discriminate|]. simpl in H.
  now rewrite (for_in_append_keeps _ "breeds" "status" eq_refl _ _ _ H).
Qed.

Lemma search_success_status breed_name breeds images doc :
  search_success breed_name breeds images = inr doc ->
  dict_get "status" doc = Some (JStr "success").
Proof.
  unfold search_success. intros H.
  destruct (py_index0 breeds) as [e|first]; [discriminate|]. simpl in H.
  destruct (py_item first "name") as [e|found]; [discriminate|]. simpl in H.
  destruct (py_len images) as [e|n]; [discriminate|].
  destruct (py_iter images) as [e|items]; [discriminate|]. simpl in H.
  now rewrite (for_in_append_keeps _ "images" "status" eq_refl _ _ _ H).
Qed.

Ltac returned :=
  eexists; eexists; split; [reflexivity|];
  first [ right; reflexivity
        | left; eauto using random_success_status, breeds_success_status,
                  search_success_status ].

Lemma random_returns env key breed_id category_ids format limit :
  tool_returns
    (get_random_dog_image_doc env key breed_id category_ids format limit)
    (get_random_dog_image env key breed_id category_ids format limit)
    has_status.
Proof.
  apply tool_returns_serialized. intros s. unfold has_status.
  run_tool. split_cases; returned.
Qed.

Lemma breeds_returns env key limit page search :
  tool_returns (get_dog_breeds_doc env key limit page search)
    (get_dog_breeds env key limit page search) has_status.
Proof.
  apply tool_returns_serialized. intros s. unfold has_status.
  run_tool. split_cases; returned.
Qed.

Lemma search_returns env key breed_name limit has_breeds :
  tool_returns (search_dog_images_doc env key breed_name limit has_breeds)
    (search_dog_images env key breed_name limit has_breeds) has_status.
Proof.
  apply tool_returns_serialized. intros s. unfold has_status.
  run_tool. split_cases; returned.
Qed.

Lemma status_returns env key :
  tool_returns (check_dog_api_status_doc env key)
    (check_dog_api_status env key) is_status_report.
Proof.
  apply tool_returns_serialized. intros s. unfold is_status_report.
  run_tool. destruct key as [[|c k]|]; split_cases;
    (eexists; eexists; split; [reflexivity|]);
    first [ left; reflexivity
          | right; split; [reflexivity|]; first [left; reflexivity | right; reflexivity] ].
Qed.

(** C1 (as the code has it): under every upstream behaviour each of the four
    tools returns, without raising, the serialisation of exactly one
    document. For [get_random_dog_image], [get_dog_breeds] and
    [search_dog_images] the document has a [status] field that is "success"
    or "error". For [check_dog_api_status] the document has status "error"
    (and nothing of the report) exactly when a request raises: the probe, or
    the key check that follows a probe answered HTTP 200 when a key is
    configured. In every other case it is a report that has no [status]
    field and tells the outcome in [api_status]: "operational" when the
    probe answered 200, "error" when it answered another status. *)
Theorem tools_return_one_document env key :
  (forall breed_id category_ids format limit,
      tool_returns
        (get_random_dog_image_doc env key breed_id category_ids format limit)
        (get_random_dog_image env key breed_id category_ids format limit)
        has_status) /\
  (forall limit page search,
      tool_returns (get_dog_breeds_doc env key limit page search)
        (get_dog_breeds env key limit page search) has_status) /\
  (forall breed_name limit has_breeds,
      tool_returns (search_dog_images_doc env key breed_name limit has_breeds)
        (search_dog_images env key breed_name limit has_breeds) has_status) /\
  tool_returns (check_dog_api_status_doc env key)
    (check_dog_api_status env key) is_status_report /\
  (forall s,
      (forall e,
          http env s probe_request = Raised e ->
          status_error_at env key s) /\
      (forall r,
          http env s probe_request = Responded r ->
          status_code r <> 200 ->
          status_report_at env key s "error") /\
      (forall r,
          http env s probe_request = Responded r ->
          status_code r = 200 ->
          truthy_opt key = false ->
          status_report_at env key s "operational") /\
      (forall r c k r2,
          http env s probe_request = Responded r ->
          status_code r = 200 ->
          key = Some (String c k) ->
          http env (after_probe s) (auth_request (String c k)) = Responded r2 ->
          status_report_at env key s "operational") /\
      (forall r c k e,
          http env s probe_request = Responded r ->
          status_code r = 200 ->
          key = Some (String c k) ->
          http env (after_probe s) (auth_request (String c k)) = Raised e ->
          status_error_at env key s)).
Proof.
  split; [intros; apply random_returns|].
  split; [intros; apply breeds_returns|].
  split; [intros; apply search_returns|].
  split; [apply status_returns|].
  intros s. unfold status_error_at, status_report_at, after_probe.
  split; [|split; [|split; [|split]]].
  - intros e Hhttp. run_tool. rewrite Hhttp. cbn.
    destruct (is_timeout e); eexists; eexists; repeat split; reflexivity.
  - intros r Hhttp Hcode. apply Z.eqb_neq in Hcode.
    run_tool. rewrite Hhttp. cbn. rewrite Hcode.
    eexists; eexists; repeat split; reflexivity.
  - intros r Hhttp Hcode Hkey. run_tool. rewrite Hhttp. cbn. rewrite Hcode.
    destruct key as [[|c k]|]; try discriminate Hkey;
      eexists; eexists; repeat split; reflexivity.
  - intros r c k r2 Hhttp Hcode -> Hhttp2.
    run_tool. rewrite Hhttp. cbn. rewrite Hcode. cbn. rewrite Hhttp2. cbn.
    eexists; eexists; repeat split; reflexivity.
  - intros r c k e Hhttp Hcode -> Hhttp2.
    run_tool. rewrite Hhttp. cbn. rewrite Hcode. cbn. rewrite Hhttp2. cbn.
    destruct (is_timeout e); eexists; eexists; repeat split; reflexivity.
Qed.

Lemma tools_return_one_document_witness :
  status_error_at golden_then_slow (Some "live_key") initial.
Proof.
  apply (proj2 (proj2 (proj2 (proj2
           (proj2 (proj2 (proj2 (proj2
              (tools_return_one_document golden_then_slow (Some "live_key")))))
              initial))))
           {| status_code := 200; text := json_dumps (JList [golden_breed]);
              body := inr (JList [golden_breed]) |}
           "l"%char "ive_key" (TimeoutException "timed out"));
    reflexivity.
Defined.

(** C1 as stated fails for [check_dog_api_status]: when the probe answers
    HTTP 200 the returned report has no [status] field. *)
Lemma status_report_has_no_status_field :
  ~ tool_returns (check_dog_api_status_doc quiet None)
      (check_dog_api_status quiet None) has_status.
Proof.
  intros H. destruct (H initial) as (doc & s' & Hdoc & _ & Hstatus).
  vm_compute in Hdoc. injection Hdoc as <- _.
  destruct Hstatus as [Hs|Hs]; discriminate Hs.
Qed.

Lemma spec_metric_get k b :
  object_or_absent (dict_get k b) = true ->
  (weight <~ py_get (JDict b) k (JDict []) ;;
   py_get weight "metric" (JStr "Unknown"))
  = inr (spec_metric k b).
Proof.
  unfold spec_metric. cbn [py_get ebind].
  destruct (dict_get k b) as [[]|]; try discriminate; reflexivity.
Qed.

Lemma random_image_info_entry img :
  well_formed_image img = true ->
  exists e, random_image_info img = inr e /\ spec_image_entry img (JDict e).
Proof.
  destruct img as [| | | | |l|d]; try discriminate. intros Hwf.
  unfold well_formed_image in Hwf.
  unfold random_image_info, has_breeds_entry, py_in, py_item, dict_has.
  cbn [py_get ebind].
  destruct (dict_get "breeds" d) as [breeds|] eqn:Hb.
  - assert (Hcases : (exists breed rest, breeds = JList (breed :: rest)
                                         /\ well_formed_breed breed = true)
                     \/ truthy breeds = false).
    { destruct breeds as [| | | | |[|breed rest]|]; eauto;
        right; now apply negb_true_iff. }
    destruct Hcases as [(breed & rest & -> & Hbreed) | Hfalsy].
    + cbn [truthy ebind py_index0].
      destruct breed as [| | | | | |b]; try discriminate Hbreed.
      apply andb_true_iff in Hbreed as [Hw Hh].
      pose proof (spec_metric_get "weight" b Hw) as Hweight.
      pose proof (spec_metric_get "height" b Hh) as Hheight.
      cbn [py_get ebind] in *.
      destruct (match dict_get "weight" b with Some x => x | None => JDict [] end)
        as [| | | | | |w]; try discriminate Hweight.
      destruct (match dict_get "height" b with Some x => x | None => JDict [] end)
        as [| | | | | |h]; try discriminate Hheight.
      cbn [py_get ebind] in *.
      injection Hweight as Hweight. injection Hheight as Hheight.
      rewrite Hweight, Hheight.
      eexists; split; [reflexivity|].
      exists d; eexists; repeat (split; [reflexivity|]).
      split; [split|].
      * intros _. eauto.
      * reflexivity.
      * intros b' r' Hbr. rewrite Hb in Hbr. injection Hbr as <- <-.
        reflexivity.
    + cbn [ebind]. rewrite Hfalsy.
      eexists; split; [reflexivity|].
      exists d; eexists; repeat (split; [reflexivity|]).
      split; [split|]; [discriminate | intros (b & r & Hbr) | intros b r Hbr];
        rewrite Hb in Hbr; injection Hbr as ->; discriminate Hfalsy.
  - cbn. eexists; split; [reflexivity|].
    exists d; eexists; repeat (split; [reflexivity|]).
    split; [split|]; [discriminate | intros (b & r & Hbr) | intros b r Hbr];
      rewrite Hb in Hbr; discriminate Hbr.
Qed.

(** The loop over well-formed images appends one entry per image, in
    order, and touches no other field. *)
Lemma random_loop items :
  forallb well_formed_image items = true ->
  forall acc done,
    dict_get "images" acc = Some (JList done) ->
    exists res entries,
      for_in items acc
        (fun img result =>
           image_info <~ random_image_info img ;;
           inr (dict_append "images" (JDict image_info) result))
      = inr res /\
      dict_get "images" res = Some (JList (done ++ entries)%list) /\
      Forall2 spec_image_entry items entries.
Proof.
  induction items as [|img items IH]; intros Hwf acc done Hacc.
  - exists acc, []. rewrite app_nil_r. repeat split; auto.
  - cbn [forallb] in Hwf. apply andb_true_iff in Hwf as [Himg Hrest].
    destruct (random_image_info_entry img Himg) as (e & He & Hentry).
    destruct (IH Hrest (dict_append "images" (JDict e) acc)
                (done ++ [JDict e])%list)
      as (res & entries & Hrun & Himages & Hall).
    { unfold dict_append. rewrite Hacc. apply dict_get_set_same. }
    exists res, (JDict e :: entries).
    cbn [for_in]. rewrite He. cbn [ebind]. rewrite Hrun.
    rewrite <- app_assoc in Himages. repeat split; auto.
Qed.

(** C2 (as the code has it): when the image search answers HTTP 200 with a
    list of N well-formed image records ([well_formed_image]: objects whose
    [breeds], when present, is an empty value or a list whose first element
    is an object whose [weight] and [height], when present, are objects),
    [get_random_dog_image] returns a success document whose [count] is N
    and whose [images] has N entries in the order of the upstream list;
    each entry has breed information if and only if its item has a present,
    non-empty [breeds] list, and that information is taken from the first
    breed, with metric weight and height "Unknown" when absent. *)
Theorem random_images_mapped env key breed_id category_ids format limit r items :
  http env initial (random_request key breed_id category_ids format limit)
    = Responded r ->
  status_code r = 200 ->
  body r = inr (JList items) ->
  forallb well_formed_image items = true ->
  exists doc entries,
    outcome_of (get_random_dog_image_doc env key breed_id category_ids format limit)
      = inr doc /\
    outcome_of (get_random_dog_image env key breed_id category_ids format limit)
      = inr (json_dumps (JDict doc)) /\
    dict_get "status" doc = Some (JStr "success") /\
    dict_get "count" doc = Some (JInt (Z.of_nat (List.length items))) /\
    dict_get "images" doc = Some (JList entries) /\
    List.length entries = List.length items /\
    Forall2 spec_image_entry items entries.
Proof.
  intros Hhttp Hcode Hbody Hwf.
  set (result := [("status", JStr "success");
                  ("count", JInt (Z.of_nat (List.length items)));
                  ("images", JList [])]).
  destruct (random_loop items Hwf result [] eq_refl)
    as (doc & entries & Hrun & Himages & Hall).
  assert (Hsuccess : random_success (JList items) = inr doc).
  { unfold random_success. cbn [py_len py_iter ebind]. exact Hrun. }
  assert (Hdoc : outcome_of (get_random_dog_image_doc env key breed_id
                               category_ids format limit) = inr doc).
  { run_tool. rewrite Hhttp. cbn. rewrite Hcode. cbn.
    unfold response_json. rewrite Hbody, Hsuccess. reflexivity. }
  exists doc, entries.
  split; [exact Hdoc|].
  split; [apply serialized_outcome, Hdoc|].
  split; [exact (random_success_status _ _ Hsuccess)|].
  split.
  { rewrite (for_in_append_keeps _ "images" "count" eq_refl _ _ _ Hrun).
    reflexivity. }
  split; [exact Himages|].
  split; [symmetry; eapply Forall2_length; exact Hall | exact Hall].
Qed.

Lemma random_images_mapped_witness :
  exists doc entries,
    outcome_of (get_random_dog_image_doc gallery None None None "json" 2)
      = inr doc /\
    dict_get "images" doc = Some (JList entries) /\
    List.length entries = 2%nat.
Proof.
  destruct (random_images_mapped gallery None None None "json" 2
              {| status_code := 200; text := json_dumps golden_images;
                 body := inr golden_images |}
              [JDict [("id", JStr "HJ7Pzg5EQ");
                      ("url", JStr "https://cdn2.thedogapi.com/images/HJ7Pzg5EQ.jpg");
                      ("width", JInt 1024); ("height", JInt 768);
                      ("breeds", JList [golden_breed])];
               JDict [("id", JStr "Sk2FXx9EX");
                      ("url", JStr "https://cdn2.thedogapi.com/images/Sk2FXx9EX.jpg");
                      ("breeds", JList [])]]
              eq_refl eq_refl eq_refl eq_refl)
    as (doc & entries & H).
  exists doc, entries. repeat split; apply H.
Defined.

(** C2 as stated fails on a list whose item is not a well-formed record:
    for one image whose first breed has [null] for its weight, the answer is
    HTTP 200 with a list of one item, but [breed.get("weight", {})] is
    [None] and [.get] on it raises, so the tool returns the generic error
    document: no success envelope, no entry, no "Unknown". *)
Lemma random_null_weight_is_an_error :
  http weightless initial (random_request None None None "json" 1)
    = ok_response (JList [weightless_image]) /\
  outcome_of (get_random_dog_image_doc weightless None None None "json" 1)
    = inr [("status", JStr "error");
           ("message",
            JStr "Unexpected error: 'NoneType' object has no attribute 'get'");
           ("timestamp", JStr "2025-01-01T00:00:00")] /\
  ~ (exists doc entries,
        outcome_of (get_random_dog_image_doc weightless None None None "json" 1)
          = inr doc /\
        dict_get "status" doc = Some (JStr "success") /\
        dict_get "images" doc = Some (JList entries) /\
        List.length entries = 1%nat).
Proof.
  split; [reflexivity|]. split; [reflexivity|].
  intros (doc & entries & Hdoc & Hstatus & _).
  vm_compute in Hdoc. injection Hdoc as <-. discriminate Hstatus.
Qed.

(** * Further properties of the tools *)

(** ** get_random_dog_image *)

(** X1: a response with any status other than 200 gives the status-code
    error document: the message carries the code, [details] the raw body
    text, and the body is never parsed. One request is sent. *)
Theorem random_upstream_status env key breed_id category_ids format limit r :
  http env initial (random_request key breed_id category_ids format limit)
    = Responded r ->
  status_code r <> 200 ->
  outcome_of (get_random_dog_image_doc env key breed_id category_ids format limit)
  = inr [("status", JStr "error");
         ("message",
          JStr ("API request failed with status " ++ str_int (status_code r)));
         ("details", JStr (text r))] /\
  requests (get_random_dog_image_doc env key breed_id category_ids format limit)
  = [random_request key breed_id category_ids format limit].
Proof.
  intros Hhttp Hcode. apply Z.eqb_neq in Hcode.
  run_tool. rewrite Hhttp. cbn. rewrite Hcode. split; reflexivity.
Qed.

Lemma random_upstream_status_witness :
  outcome_of (get_random_dog_image_doc unavailable None None None "json" 1)
  = inr [("status", JStr "error");
         ("message", JStr "API request failed with status 503");
         ("details", JStr "Service Unavailable")].
Proof.
  apply (random_upstream_status unavailable None None None "json" 1
           {| status_code := 503; text := "Service Unavailable";
              body := inl "Expecting value" |}).
  - reflexivity.
  - discriminate.
Defined.

(** X2: every failure of [get_random_dog_image] that is not a timeout gives
    the generic document "Unexpected error: <str(e)>" with a timestamp: a
    transport failure of the request, a body that is not JSON, and a JSON
    body that has no length (null, a number, a boolean). *)
Theorem random_unexpected_error env key breed_id category_ids format limit :
  let req := random_request key breed_id category_ids format limit in
  let doc_tool :=
    get_random_dog_image_doc env key breed_id category_ids format limit in
  let s1 := after_request initial req in
  (forall e,
      http env initial req = Raised e -> is_timeout e = false ->
      outcome_of doc_tool = inr (generic_doc env "Unexpected error: " e s1)) /\
  (forall r msg,
      http env initial req = Responded r -> status_code r = 200 ->
      body r = inl msg ->
      outcome_of doc_tool
      = inr (generic_doc env "Unexpected error: " (JSONDecodeError msg) s1)) /\
  (forall r data e,
      http env initial req = Responded r -> status_code r = 200 ->
      body r = inr data -> py_len data = inl e ->
      outcome_of doc_tool = inr (generic_doc env "Unexpected error: " e s1) /\
      str_exn e = "object of type '" ++ type_name data ++ "' has no len()").
Proof.
  intros req doc_tool s1. subst req doc_tool s1. split; [|split].
  - intros e Hhttp He. run_tool. rewrite Hhttp. cbn. rewrite He. reflexivity.
  - intros r msg Hhttp Hcode Hbody. run_tool. rewrite Hhttp. cbn.
    rewrite Hcode. cbn. unfold response_json. rewrite Hbody. reflexivity.
  - intros r data e Hhttp Hcode Hbody Hlen.
    assert (He : e = TypeError ("object of type '" ++ type_name data
                                  ++ "' has no len()")).
    { destruct data; simpl in Hlen; try discriminate Hlen;
        injection Hlen as <-; reflexivity. }
    split; [|subst e; reflexivity].
    run_tool. rewrite Hhttp. cbn. rewrite Hcode. cbn.
    unfold response_json, random_success. rewrite Hbody, Hlen. cbn.
    subst e. reflexivity.
Qed.

Lemma random_unexpected_error_witness :
  outcome_of (get_random_dog_image_doc unreachable None None None "json" 1)
  = inr [("status", JStr "error");
         ("message", JStr "Unexpected error: All connection attempts failed");
         ("timestamp", JStr "2025-01-01T00:00:00")].
Proof.
  apply (proj1 (random_unexpected_error unreachable None None None "json" 1)
           (TransportError "All connection attempts failed"));
    reflexivity.
Defined.

Lemma no_timeout_ret {A} (a : A) : no_timeout (inr a : E A).
Proof. intros e H. discriminate H. Qed.

Lemma no_timeout_bind {A B} (c : E A) (k : A -> E B) :
  no_timeout c -> (forall a, no_timeout (k a)) -> no_timeout (ebind c k).
Proof.
  intros Hc Hk e H. destruct c as [e'|a]; simpl in H.
  - injection H as <-. now apply Hc.
  - now apply (Hk a).
Qed.

Lemma py_get_no_timeout v k dflt : no_timeout (py_get v k dflt).
Proof. intros e H. destruct v; simpl in H; try discriminate H; now injection H as <-. Qed.

Lemma py_in_no_timeout k v : no_timeout (py_in k v).
Proof. intros e H. destruct v; simpl in H; try discriminate H; now injection H as <-. Qed.

Lemma py_item_no_timeout v k : no_timeout (py_item v k).
Proof.
  intros e H. destruct v; simpl in H; try discriminate H;
    try (now injection H as <-).
  destruct (dict_get k d); [discriminate H | now injection H as <-].
Qed.

Lemma py_index0_no_timeout v : no_timeout (py_index0 v).
Proof.
  intros e H. destruct v as [| | | |[|]|[|]|]; simpl in H; try discriminate H;
    now injection H as <-.
Qed.

Lemma py_len_no_timeout v : no_timeout (py_len v).
Proof. intros e H. destruct v; simpl in H; try discriminate H; now injection H as <-. Qed.

Lemma py_iter_no_timeout v : no_timeout (py_iter v).
Proof. intros e H. destruct v; simpl in H; try discriminate H; now injection H as <-. Qed.

Lemma for_in_no_timeout {A} (body : json -> A -> E A) :
  (forall x acc, no_timeout (body x acc)) ->
  forall items acc, no_timeout (for_in items acc body).
Proof.
  intros Hbody. induction items as [|x items IH]; intros acc; cbn [for_in].
  - apply no_timeout_ret.
  - apply no_timeout_bind; [apply Hbody | intros a; apply IH].
Qed.

Ltac no_timeout_step :=
  first
    [ apply no_timeout_ret
    | apply py_get_no_timeout | apply py_in_no_timeout
    | apply py_item_no_timeout | apply py_index0_no_timeout
    | apply py_len_no_timeout | apply py_iter_no_timeout
    | apply no_timeout_bind; [|intros ?]
    | match goal with
      | |- no_timeout (if ?c then _ else _) => destruct c
      end ].

Lemma has_breeds_entry_no_timeout img : no_timeout (has_breeds_entry img).
Proof. unfold has_breeds_entry. repeat no_timeout_step. Qed.

Lemma random_image_info_no_timeout img : no_timeout (random_image_info img).
Proof.
  unfold random_image_info.
  repeat first [apply has_breeds_entry_no_timeout | no_timeout_step].
Qed.

Lemma random_success_no_timeout data : no_timeout (random_success data).
Proof.
  unfold random_success.
  repeat first
    [ apply for_in_no_timeout; intros ? ?
    | apply random_image_info_no_timeout | no_timeout_step ].
Qed.

(** An item that is not a well-formed image record makes the loop body
    raise. *)
Lemma random_image_info_rejects img :
  well_formed_image img = false -> exists e, random_image_info img = inl e.
Proof.
  intros Hwf.
  destruct img as [| | | | | |d]; try (eexists; reflexivity).
  unfold well_formed_image in Hwf.
  unfold random_image_info, has_breeds_entry, py_in, py_item, dict_has.
  cbn [py_get ebind].
  destruct (dict_get "breeds" d) as [breeds|]; [|discriminate Hwf].
  destruct breeds as [|[]| |x|[|c s]|[|breed rest]|[|kv d']];
    try discriminate Hwf; cbn [truthy ebind py_index0 py_get];
    try (eexists; reflexivity).
  - cbn in Hwf. apply negb_false_iff in Hwf. apply negb_true_iff in Hwf.
    rewrite Hwf. cbn. eexists; reflexivity.
  - cbn in Hwf. apply negb_false_iff in Hwf. rewrite Hwf. cbn.
    eexists; reflexivity.
  - destruct breed as [| | | | | |b]; try (eexists; reflexivity).
    cbn [well_formed_breed] in Hwf. cbn [py_get ebind].
    destruct (dict_get "weight" b) as [[]|]; cbn [object_or_absent andb] in Hwf;
      cbn [py_get ebind]; try (eexists; reflexivity);
      destruct (dict_get "height" b) as [[]|]; try discriminate Hwf;
      cbn [py_get ebind]; eexists; reflexivity.
Qed.

Lemma random_loop_rejects items :
  forallb well_formed_image items = false ->
  forall acc, exists e,
    for_in items acc
      (fun img result =>
         image_info <~ random_image_info img ;;
         inr (dict_append "images" (JDict image_info) result))
    = inl e.
Proof.
  induction items as [|img items IH]; intros Hwf acc; [discriminate Hwf|].
  cbn [forallb] in Hwf. cbn [for_in].
  destruct (well_formed_image img) eqn:Himg.
  - destruct (random_image_info_entry img Himg) as (e & -> & _). cbn [ebind].
    apply IH. exact Hwf.
  - destruct (random_image_info_rejects img Himg) as (e & ->).
    eexists; reflexivity.
Qed.

(** X3: there is no partial success. When the image search answers HTTP
    200 with a list in which some item is not a well-formed image record,
    [get_random_dog_image] returns the generic error document and none of
    the images, also not those before the faulty item. *)
Theorem random_malformed_item env key breed_id category_ids format limit r items :
  http env initial (random_request key breed_id category_ids format limit)
    = Responded r ->
  status_code r = 200 ->
  body r = inr (JList items) ->
  forallb well_formed_image items = false ->
  exists e,
    outcome_of (get_random_dog_image_doc env key breed_id category_ids format limit)
    = inr (generic_doc env "Unexpected error: " e
             (after_request initial
                (random_request key breed_id category_ids format limit))) /\
    field "images"
      (get_random_dog_image_doc env key breed_id category_ids format limit)
    = None.
Proof.
  intros Hhttp Hcode Hbody Hwf.
  destruct (random_loop_rejects items Hwf
              [("status", JStr "success");
               ("count", JInt (Z.of_nat (List.length items)));
               ("images", JList [])]) as (e & Hloop).
  assert (Hfail : random_success (JList items) = inl e).
  { unfold random_success. cbn [py_len py_iter ebind]. exact Hloop. }
  pose proof (random_success_no_timeout _ _ Hfail) as He.
  exists e.
  assert (Hdoc : outcome_of (get_random_dog_image_doc env key breed_id
                               category_ids format limit)
                 = inr (generic_doc env "Unexpected error: " e
                          (after_request initial
                             (random_request key breed_id category_ids
                                format limit)))).
  { run_tool. rewrite Hhttp. cbn. rewrite Hcode. cbn.
    unfold response_json. rewrite Hbody, Hfail. cbn. rewrite He. reflexivity. }
  split; [exact Hdoc|].
  unfold field. rewrite Hdoc. reflexivity.
Qed.

Lemma random_malformed_item_witness :
  field "images" (get_random_dog_image_doc broken None None None "json" 1)
  = None.
Proof.
  destruct (random_malformed_item broken None None None "json" 1
              {| status_code := 200; text := json_dumps (JList [JNull]);
                 body := inr (JList [JNull]) |} [JNull]
              eq_refl eq_refl eq_refl eq_refl) as (e & _ & H).
  exact H.
Defined.

(** ** What goes upstream *)

Lemma status_requests env key :
  let rs := requests (check_dog_api_status env key) in
  rs = [probe_request] \/
  exists c k, key = Some (String c k) /\
              rs = [probe_request; auth_request (String c k)].
Proof.
  intros rs; subst rs. run_tool.
  destruct key as [[|c k]|]; split_cases;
    try (left; reflexivity); right; exists c, k; split; reflexivity.
Qed.

(** X4: the three data tools forward the configured API key, and nothing
    else, in the headers of every request they send: one [x-api-key] header
    when a non-empty key is configured, no header at all otherwise (an empty
    key counts as no key). *)
Theorem api_key_header_forwarded env key :
  let expected :=
    match key with
    | Some (String c k) => [("x-api-key", String c k)]
    | _ => []
    end in
  (forall breed_id category_ids format limit req,
      In req (requests (get_random_dog_image env key breed_id category_ids
                          format limit)) ->
      headers req = expected) /\
  (forall limit page search req,
      In req (requests (get_dog_breeds env key limit page search)) ->
      headers req = expected) /\
  (forall breed_name limit has_breeds req,
      In req (requests (search_dog_images env key breed_name limit has_breeds)) ->
      headers req = expected).
Proof.
  intros expected. split; [|split].
  - intros b c f l req Hin. rewrite random_sends_one_request in Hin.
    destruct Hin as [<- | []]. reflexivity.
  - intros l p s req Hin. rewrite breeds_sends_one_request in Hin.
    destruct Hin as [<- | []]. reflexivity.
  - intros n l hb req Hin.
    destruct (search_requests env key n l hb) as [Hrs | [id Hrs]];
      rewrite Hrs in Hin; simpl in Hin.
    + destruct Hin as [<- | []]. reflexivity.
    + destruct Hin as [<- | [<- | []]]; reflexivity.
Qed.

Lemma api_key_header_forwarded_witness :
  headers (breed_search_request (Some "live_key") "golden")
  = [("x-api-key", "live_key")].
Proof.
  apply (proj2 (proj2 (api_key_header_forwarded golden (Some "live_key")))
           "golden" 5 true).
  left. reflexivity.
Defined.

(** X5: whatever the caller passes, a [limit] that goes upstream is within
    the documented range: 1..10 for both image tools, 1..100 for
    [get_dog_breeds], whose [page] is never negative. *)
Theorem sent_limits_in_range env key :
  (forall breed_id category_ids format limit req,
      In req (requests (get_random_dog_image env key breed_id category_ids
                          format limit)) ->
      exists n, dict_get "limit" (params req) = Some (JInt n) /\ 1 <= n <= 10) /\
  (forall breed_name limit has_breeds req,
      In req (requests (search_dog_images env key breed_name limit has_breeds)) ->
      dict_get "limit" (params req) = None \/
      exists n, dict_get "limit" (params req) = Some (JInt n) /\ 1 <= n <= 10) /\
  (forall limit page search req,
      In req (requests (get_dog_breeds env key limit page search)) ->
      exists n p,
        dict_get "limit" (params req) = Some (JInt n) /\ 1 <= n <= 100 /\
        dict_get "page" (params req) = Some (JInt p) /\ 0 <= p).
Proof.
  split; [|split].
  - intros b c f l req Hin. rewrite random_sends_one_request in Hin.
    destruct Hin as [<- | []]. exists (random_limit l).
    split; [apply random_limit_param|].
    unfold random_limit. rewrite Z.gtb_ltb.
    destruct (Z.ltb_spec l 1); cbn [orb]; [lia|].
    destruct (Z.ltb_spec 10 l); lia.
  - intros n l hb req Hin.
    destruct (search_requests env key n l hb) as [Hrs | [id Hrs]];
      rewrite Hrs in Hin; simpl in Hin.
    + destruct Hin as [<- | []]. left. reflexivity.
    + destruct Hin as [<- | [<- | []]]; [left; reflexivity|].
      right. exists (search_limit l). split; [reflexivity|].
      unfold search_limit. lia.
  - intros l p s req Hin. rewrite breeds_sends_one_request in Hin.
    destruct Hin as [<- | []].
    destruct (breeds_sent_params key l p s) as [Hl Hp].
    exists (breeds_limit l), (breeds_page p).
    split; [exact Hl|]. split; [|split; [exact Hp|]].
    + unfold breeds_limit. rewrite Z.gtb_ltb.
      destruct (Z.ltb_spec l 1); cbn [orb]; [lia|].
      destruct (Z.ltb_spec 100 l); lia.
    + unfold breeds_page. destruct (Z.ltb_spec p 0); lia.
Qed.

Lemma sent_limits_in_range_witness :
  exists n,
    dict_get "limit" (params (random_request None None None "json" 1000))
    = Some (JInt n) /\ 1 <= n <= 10.
Proof.
  apply (proj1 (sent_limits_in_range quiet None) None None "json" 1000).
  left. reflexivity.
Defined.

(** X6: the query of [get_random_dog_image] has [limit] and [format] and,
    in this order, [breed_ids] and [category_ids] for the values that are
    given and not empty, and no other parameter. [format] and the two
    filters go upstream as given: nothing checks [format] against "json"
    and "src". *)
Theorem random_query_parameters key breed_id category_ids format limit :
  let query := params (random_request key breed_id category_ids format limit) in
  map fst query
  = (["limit"; "format"]
     ++ (if truthy_opt breed_id then ["breed_ids"] else [])
     ++ (if truthy_opt category_ids then ["category_ids"] else []))%list /\
  dict_get "format" query = Some (JStr format) /\
  (forall b, breed_id = Some b -> truthy_opt breed_id = true ->
             dict_get "breed_ids" query = Some (JStr b)) /\
  (forall c, category_ids = Some c -> truthy_opt category_ids = true ->
             dict_get "category_ids" query = Some (JStr c)).
Proof.
  intros query. subst query.
  unfold random_request, random_params, set_if_given. cbn [params].
  destruct breed_id as [[|b0 b]|], category_ids as [[|c0 c]|];
    cbn [truthy_opt]; (split; [reflexivity|]); (split; [reflexivity|]);
    split; intros x Hx Ht; try discriminate; injection Hx as <-; reflexivity.
Qed.

Lemma random_query_parameters_witness :
  dict_get "breed_ids"
    (params (random_request None (Some "golden") None "png" 3))
  = Some (JStr "golden").
Proof.
  apply (proj1 (proj2 (proj2 (random_query_parameters None (Some "golden")
                                None "png" 3))) "golden"); reflexivity.
Defined.

(** X7: no tool retries or fans out. [get_random_dog_image] and
    [get_dog_breeds] send exactly one request whatever happens;
    [search_dog_images] sends the breed search, with [q] set to the name as
    given (also when it is empty), and at most one image search after it;
    [check_dog_api_status] sends the probe and at most the key check after
    it, and the key check only when a non-empty key is configured. *)
Theorem tools_send_bounded_requests env key :
  (forall breed_id category_ids format limit,
      List.length (requests (get_random_dog_image env key breed_id
                               category_ids format limit)) = 1%nat) /\
  (forall limit page search,
      List.length (requests (get_dog_breeds env key limit page search)) = 1%nat) /\
  (forall breed_name limit has_breeds,
      let rs := requests (search_dog_images env key breed_name limit has_breeds) in
      (List.length rs <= 2)%nat /\
      nth_error rs 0
      = Some {| url := DOG_API_BASE_URL ++ "/breeds/search";
                params := [("q", JStr breed_name)];
                headers := key_headers key |} /\
      (forall req, nth_error rs 1 = Some req ->
                   url req = DOG_API_BASE_URL ++ "/images/search")) /\
  (let rs := requests (check_dog_api_status env key) in
   (List.length rs <= 2)%nat /\
   nth_error rs 0 = Some probe_request /\
   (forall req, nth_error rs 1 = Some req ->
                truthy_opt key = true /\
                url req = DOG_API_BASE_URL ++ "/breeds")).
Proof.
  split; [|split; [|split]].
  - intros. now rewrite random_sends_one_request.
  - intros. now rewrite breeds_sends_one_request.
  - intros n l hb rs. subst rs.
    destruct (search_requests env key n l hb) as [-> | [id ->]].
    + split; [simpl; lia|]. split; [reflexivity|].
      intros req H. discriminate H.
    + split; [simpl; lia|]. split; [reflexivity|].
      intros req H. injection H as <-. reflexivity.
  - intros rs. subst rs.
    destruct (status_requests env key) as [-> | (c & k & -> & ->)].
    + split; [simpl; lia|]. split; [reflexivity|].
      intros req H. discriminate H.
    + split; [simpl; lia|]. split; [reflexivity|].
      intros req H. injection H as <-. split; reflexivity.
Qed.

Lemma tools_send_bounded_requests_witness :
  truthy_opt (Some "live_key") = true /\
  url (auth_request "live_key") = DOG_API_BASE_URL ++ "/breeds".
Proof.
  apply (proj2 (proj2 (proj2 (proj2 (proj2
           (tools_send_bounded_requests golden (Some "live_key"))))))).
  reflexivity.
Defined.

(** ** get_dog_breeds *)

(** A loop that maps each accepted item to an entry appends the entries in
    order. *)
Lemma for_in_append_all (f : json -> E dict) (key : string)
    (accepted : json -> bool) (R : json -> json -> Prop) :
  (forall x, accepted x = true -> exists e, f x = inr e /\ R x (JDict e)) ->
  forall items, forallb accepted items = true ->
  forall acc done,
    dict_get key acc = Some (JList done) ->
    exists res entries,
      for_in items acc
        (fun x result => info <~ f x ;; inr (dict_append key (JDict info) result))
      = inr res /\
      dict_get key res = Some (JList (done ++ entries)%list) /\
      Forall2 R items entries.
Proof.
  intros Hf. induction items as [|x items IH]; intros Hok acc done Hacc.
  - exists acc, []. rewrite app_nil_r. repeat split; auto.
  - cbn [forallb] in Hok. apply andb_true_iff in Hok as [Hx Hrest].
    destruct (Hf x Hx) as (e & He & HR).
    destruct (IH Hrest (dict_append key (JDict e) acc) (done ++ [JDict e])%list)
      as (res & entries & Hrun & Hres & Hall).
    { unfold dict_append. rewrite Hacc. apply dict_get_set_same. }
    exists res, (JDict e :: entries).
    cbn [for_in]. rewrite He. cbn [ebind]. rewrite Hrun.
    rewrite <- app_assoc in Hres. repeat split; auto.
Qed.

Lemma breed_info_entry breed :
  well_formed_breed breed = true ->
  exists e, breed_info breed = inr e /\ breed_record_entry breed (JDict e).
Proof.
  destruct breed as [| | | | | |b]; try discriminate. intros Hwf.
  cbn [well_formed_breed] in Hwf. apply andb_true_iff in Hwf as [Hw Hh].
  unfold breed_info. cbn [py_get ebind].
  destruct (dict_get "weight" b) as [[]|] eqn:Ew; try discriminate Hw;
    destruct (dict_get "height" b) as [[]|] eqn:Eh; try discriminate Hh;
    cbn [py_get ebind];
    (eexists; split; [reflexivity|]);
    exists b; eexists; unfold spec_metric, get_or; rewrite Ew, Eh;
    repeat (split; [reflexivity|]); reflexivity.
Qed.

(** X8: when the breed list answers HTTP 200 with a list of N breed
    records, [get_dog_breeds] returns a success document with [count] N, the
    page that was actually sent (0 for a negative input) and N entries in
    the order of the list. Each entry has the twelve fields of the code;
    "Unknown" (for [alt_names] the empty string) stands in for an absent
    key only, and a key present with [null] stays [null]. *)
Theorem breeds_mapped env key limit page search r items :
  http env initial (breeds_request key limit page search) = Responded r ->
  status_code r = 200 ->
  body r = inr (JList items) ->
  forallb well_formed_breed items = true ->
  exists doc entries,
    outcome_of (get_dog_breeds_doc env key limit page search) = inr doc /\
    outcome_of (get_dog_breeds env key limit page search)
      = inr (json_dumps (JDict doc)) /\
    dict_get "status" doc = Some (JStr "success") /\
    dict_get "count" doc = Some (JInt (Z.of_nat (List.length items))) /\
    dict_get "page" doc
      = dict_get "page" (params (breeds_request key limit page search)) /\
    dict_get "page" doc = Some (JInt (Z.max 0 page)) /\
    dict_get "breeds" doc = Some (JList entries) /\
    Forall2 breed_record_entry items entries.
Proof.
  intros Hhttp Hcode Hbody Hwf.
  destruct (for_in_append_all breed_info "breeds" well_formed_breed
              breed_record_entry breed_info_entry items Hwf
              [("status", JStr "success");
               ("count", JInt (Z.of_nat (List.length items)));
               ("page", JInt (breeds_page page)); ("breeds", JList [])]
              [] eq_refl)
    as (doc & entries & Hrun & Hbreeds & Hall).
  assert (Hsuccess : breeds_success (breeds_page page) (JList items) = inr doc).
  { unfold breeds_success. cbn [py_len py_iter ebind]. exact Hrun. }
  assert (Hdoc : outcome_of (get_dog_breeds_doc env key limit page search)
                 = inr doc).
  { run_tool. rewrite Hhttp. cbn. rewrite Hcode. cbn.
    unfold response_json. rewrite Hbody, Hsuccess. reflexivity. }
  assert (Hpage : dict_get "page" doc = Some (JInt (breeds_page page))).
  { now rewrite (for_in_append_keeps _ "breeds" "page" eq_refl _ _ _ Hrun). }
  exists doc, entries.
  split; [exact Hdoc|].
  split; [apply serialized_outcome, Hdoc|].
  split; [exact (breeds_success_status _ _ _ Hsuccess)|].
  split.
  { now rewrite (for_in_append_keeps _ "breeds" "count" eq_refl _ _ _ Hrun). }
  split.
  { rewrite Hpage. symmetry. apply breeds_sent_params. }
  split.
  { rewrite Hpage. unfold breeds_page.
    destruct (Z.ltb_spec page 0); do 2 f_equal; lia. }
  split; [exact Hbreeds | exact Hall].
Qed.

Lemma breeds_mapped_witness :
  exists doc entries,
    outcome_of (get_dog_breeds_doc golden None 10 (-2) None) = inr doc /\
    dict_get "page" doc = Some (JInt 0) /\
    dict_get "breeds" doc = Some (JList entries) /\
    Forall2 breed_record_entry [golden_breed] entries.
Proof.
  destruct (breeds_mapped golden None 10 (-2) None
              {| status_code := 200;
                 text := json_dumps (JList [golden_breed]);
                 body := inr (JList [golden_breed]) |}
              [golden_breed] eq_refl eq_refl eq_refl eq_refl)
    as (doc & entries & H).
  exists doc, entries. repeat split; apply H.
Defined.

(** X9: the three error branches of [get_dog_breeds]. A status other than
    200 gives "Failed to fetch breeds with status <code>" with the raw body
    in [details]; a timeout gives its own fixed message and suggestion, with
    no timestamp; any other failure of the request gives "Error fetching dog
    breeds: <str(e)>" with a timestamp. *)
Theorem breeds_error_branches env key limit page search :
  let req := breeds_request key limit page search in
  let doc_tool := get_dog_breeds_doc env key limit page search in
  (forall r,
      http env initial req = Responded r -> status_code r <> 200 ->
      outcome_of doc_tool
      = inr [("status", JStr "error");
             ("message",
              JStr ("Failed to fetch breeds with status "
                      ++ str_int (status_code r)));
             ("details", JStr (text r))]) /\
  (forall msg,
      http env initial req = Raised (TimeoutException msg) ->
      outcome_of doc_tool
      = inr [("status", JStr "error");
             ("message", JStr "Request timeout while fetching dog breeds");
             ("suggestion",
              JStr "Please try again with a smaller limit or check your connection")]) /\
  (forall e,
      http env initial req = Raised e -> is_timeout e = false ->
      outcome_of doc_tool
      = inr (generic_doc env "Error fetching dog breeds: " e
               (after_request initial req))).
Proof.
  intros req doc_tool. subst req doc_tool. split; [|split].
  - intros r Hhttp Hcode. apply Z.eqb_neq in Hcode.
    run_tool. rewrite Hhttp. cbn. rewrite Hcode. reflexivity.
  - intros msg Hhttp. run_tool. rewrite Hhttp. reflexivity.
  - intros e Hhttp He. run_tool. rewrite Hhttp. cbn. rewrite He. reflexivity.
Qed.

Lemma breeds_error_branches_witness :
  outcome_of (get_dog_breeds_doc slow None 10 0 None)
  = inr [("status", JStr "error");
         ("message", JStr "Request timeout while fetching dog breeds");
         ("suggestion",
          JStr "Please try again with a smaller limit or check your connection")].
Proof.
  apply (proj1 (proj2 (breeds_error_branches slow None 10 0 None)) "timed out").
  reflexivity.
Defined.

(** ** search_dog_images *)

(** X10: when the breed search answers with a status other than 200,
    [search_dog_images] stops there: it returns the "Failed to search for
    breed" document, which names the breed and carries a suggestion and no
    upstream body, and it sends no image search. *)
Theorem search_breed_lookup_failed env key breed_name limit has_breeds r :
  http env initial (breed_search_request key breed_name) = Responded r ->
  status_code r <> 200 ->
  outcome_of (search_dog_images_doc env key breed_name limit has_breeds)
  = inr [("status", JStr "error");
         ("message", JStr ("Failed to search for breed '" ++ breed_name ++ "'"));
         ("suggestion",
          JStr "Check the breed name spelling or try a different breed")] /\
  requests (search_dog_images env key breed_name limit has_breeds)
  = [breed_search_request key breed_name].
Proof.
  intros Hhttp Hcode. apply Z.eqb_neq in Hcode.
  run_tool. rewrite Hhttp. cbn. rewrite Hcode. split; reflexivity.
Qed.

Lemma search_breed_lookup_failed_witness :
  requests (search_dog_images unavailable None "Husky" 5 true)
  = [breed_search_request None "Husky"].
Proof.
  apply (search_breed_lookup_failed unavailable None "Husky" 5 true
           {| status_code := 503; text := "Service Unavailable";
              body := inl "Expecting value" |}).
  - reflexivity.
  - discriminate.
Defined.

(** After a successful lookup the rest of the body is the image search with
    the id of the first match. *)
Lemma search_after_lookup env key breed_name limit has_breeds r b rest breed_id :
  http env initial (breed_search_request key breed_name) = Responded r ->
  status_code r = 200 ->
  body r = inr (JList (JDict b :: rest)) ->
  dict_get "id" b = Some breed_id ->
    search_body env key breed_name limit has_breeds initial
    = (response <- client_get env
                     (image_search_request key breed_id limit has_breeds) ;;
       if status_code response =? 200 then
         images <- lift (response_json response) ;;
         lift (search_success breed_name (JList (JDict b :: rest)) images)
       else
         ret [("status", JStr "error");
              ("message", JStr ("Failed to fetch images for " ++ breed_name));
              ("details", JStr (text response))])
        (after_request initial (breed_search_request key breed_name)).
Proof.
  intros Hhttp Hcode Hbody Hid.
  unfold search_body at 1. unfold bind at 1. unfold client_get at 1.
  rewrite Hhttp. cbn [negb]. rewrite Hcode. cbn [Z.eqb Pos.eqb negb].
  unfold bind at 1. unfold lift at 1. unfold response_json at 1.
  rewrite Hbody. cbn [truthy negb].
  unfold bind at 1. unfold lift at 1. cbn [py_index0].
  unfold bind at 1. unfold lift at 1. cbn [py_item]. rewrite Hid.
  reflexivity.
Qed.

(** X11: when the breed search finds something, the image search uses the
    first match and only the first: it goes to [/images/search] with
    [breed_ids] set to the [id] of the first breed of the list, the clamped
    limit, and [has_breeds] 1 or 0 for the flag, whatever matches follow
    and whatever the image search then answers. *)
Theorem search_uses_first_match env key breed_name limit has_breeds r b rest
    breed_id :
  http env initial (breed_search_request key breed_name) = Responded r ->
  status_code r = 200 ->
  body r = inr (JList (JDict b :: rest)) ->
  dict_get "id" b = Some breed_id ->
  requests (search_dog_images env key breed_name limit has_breeds)
  = [breed_search_request key breed_name;
     {| url := DOG_API_BASE_URL ++ "/images/search";
        params := [("breed_ids", breed_id);
                   ("limit", JInt (Z.min (Z.max 1 limit) 10));
                   ("has_breeds", JInt (if has_breeds then 1 else 0))];
        headers := key_headers key |}].
Proof.
  intros Hhttp Hcode Hbody Hid.
  unfold search_dog_images. rewrite serialized_requests.
  unfold requests, search_dog_images_doc, try_except.
  rewrite (search_after_lookup env key breed_name limit has_breeds r b rest
             breed_id Hhttp Hcode Hbody Hid).
  unfold bind, client_get, lift, ret, generic_error, datetime_now.
  split_cases; reflexivity.
Qed.

Lemma search_uses_first_match_witness :
  requests (search_dog_images golden None "golden" 50 false)
  = [breed_search_request None "golden";
     {| url := DOG_API_BASE_URL ++ "/images/search";
        params := [("breed_ids", JInt 121); ("limit", JInt 10);
                   ("has_breeds", JInt 0)];
        headers := [] |}].
Proof.
  apply (search_uses_first_match golden None "golden" 50 false
           {| status_code := 200; text := json_dumps (JList [golden_breed]);
              body := inr (JList [golden_breed]) |}
           [("id", JInt 121); ("name", JStr "Golden Retriever");
            ("temperament", JStr "Intelligent, Kind, Friendly");
            ("life_span", JStr "10 - 12 years");
            ("weight", JDict [("imperial", JStr "55 - 75");
                              ("metric", JStr "25 - 34")])]
           [] (JInt 121)); reflexivity.
Defined.

(** X12: a first match without the key the code indexes makes the tool
    fail with the generic document whose message ends in the quoted key. A
    match without [id] fails before any image search is sent; a match with
    [id] and without [name] fails only after the image search has been sent
    and answered. *)
Theorem search_match_missing_key env key breed_name limit has_breeds r b rest :
  http env initial (breed_search_request key breed_name) = Responded r ->
  status_code r = 200 ->
  body r = inr (JList (JDict b :: rest)) ->
  let s1 := after_request initial (breed_search_request key breed_name) in
  let doc_tool := search_dog_images_doc env key breed_name limit has_breeds in
  (dict_get "id" b = None ->
   outcome_of doc_tool
   = inr [("status", JStr "error");
          ("message",
           JStr (("Error searching for " ++ breed_name ++ " images: ") ++ "'id'"));
          ("timestamp", JStr (now_isoformat env s1))] /\
   requests doc_tool = [breed_search_request key breed_name]) /\
  (forall breed_id r2 images,
      dict_get "id" b = Some breed_id ->
      dict_get "name" b = None ->
      http env s1 (image_search_request key breed_id limit has_breeds)
        = Responded r2 ->
      status_code r2 = 200 ->
      body r2 = inr images ->
      outcome_of doc_tool
      = inr [("status", JStr "error");
             ("message",
              JStr (("Error searching for " ++ breed_name ++ " images: ")
                      ++ "'name'"));
             ("timestamp",
              JStr (now_isoformat env
                      (after_request s1
                         (image_search_request key breed_id limit has_breeds))))] /\
      requests doc_tool
      = [breed_search_request key breed_name;
         image_search_request key breed_id limit has_breeds]).
Proof.
  intros Hhttp Hcode Hbody s1 doc_tool. subst s1 doc_tool. split.
  - intros Hid. run_tool. rewrite Hhttp. cbn. rewrite Hcode. cbn.
    unfold response_json. rewrite Hbody. cbn. rewrite Hid. split; reflexivity.
  - intros breed_id r2 images Hid Hname Hhttp2 Hcode2 Hbody2.
    unfold requests, outcome_of, search_dog_images_doc, try_except.
    rewrite (search_after_lookup env key breed_name limit has_breeds r b rest
               breed_id Hhttp Hcode Hbody Hid).
    unfold bind, client_get. rewrite Hhttp2, Hcode2. cbn [Z.eqb Pos.eqb].
    unfold lift, response_json. rewrite Hbody2.
    unfold search_success. cbn [py_index0 py_item ebind]. rewrite Hname.
    split; reflexivity.
Qed.

Lemma search_match_missing_key_witness :
  outcome_of (search_dog_images_doc nameless_id None "mutt" 5 true)
  = inr [("status", JStr "error");
         ("message", JStr "Error searching for mutt images: 'id'");
         ("timestamp", JStr "2025-01-01T00:00:00")] /\
  requests (search_dog_images_doc nameless_id None "mutt" 5 true)
  = [breed_search_request None "mutt"].
Proof.
  apply (proj1 (search_match_missing_key nameless_id None "mutt" 5 true
                  {| status_code := 200;
                     text := json_dumps (JList [JDict [("name", JStr "Mutt")]]);
                     body := inr (JList [JDict [("name", JStr "Mutt")]]) |}
                  [("name", JStr "Mutt")] [] eq_refl eq_refl eq_refl)).
  reflexivity.
Defined.




(** X14: when the breed is found and the image search answers with a
    status other than 200, the tool returns "Failed to fetch images for
    <name>" with the raw body of the second response in [details]; unlike
    the other status-code documents its message does not carry the code. *)
Theorem search_images_failed env key breed_name limit has_breeds
    r b rest breed_id r2 :
  http env initial (breed_search_request key breed_name) = Responded r ->
  status_code r = 200 ->
  body r = inr (JList (JDict b :: rest)) ->
  dict_get "id" b = Some breed_id ->
  http env (after_request initial (breed_search_request key breed_name))
    (image_search_request key breed_id limit has_breeds) = Responded r2 ->
  status_code r2 <> 200 ->
  outcome_of (search_dog_images_doc env key breed_name limit has_breeds)
  = inr [("status", JStr "error");
         ("message", JStr ("Failed to fetch images for " ++ breed_name));
         ("details", JStr (text r2))].
Proof.
  intros Hhttp Hcode Hbody Hid Hhttp2 Hcode2. apply Z.eqb_neq in Hcode2.
  unfold outcome_of, search_dog_images_doc, try_except.
  rewrite (search_after_lookup env key breed_name limit has_breeds r b rest
             breed_id Hhttp Hcode Hbody Hid).
  unfold bind, client_get. rewrite Hhttp2, Hcode2. reflexivity.
Qed.

Lemma search_images_failed_witness :
  outcome_of (search_dog_images_doc golden_then_unavailable None "golden" 5 true)
  = inr [("status", JStr "error");
         ("message", JStr "Failed to fetch images for golden");
         ("details", JStr "Service Unavailable")].
Proof.
  apply (search_images_failed golden_then_unavailable None "golden" 5 true
           {| status_code := 200; text := json_dumps (JList [golden_breed]);
              body := inr (JList [golden_breed]) |}
           [("id", JInt 121); ("name", JStr "Golden Retriever");
            ("temperament", JStr "Intelligent, Kind, Friendly");
            ("life_span", JStr "10 - 12 years");
            ("weight", JDict [("imperial", JStr "55 - 75");
                              ("metric", JStr "25 - 34")])]
           [] (JInt 121)
           {| status_code := 503; text := "Service Unavailable";
              body := inl "Expecting value" |});
    try reflexivity.
  discriminate.
Defined.

(** ** check_dog_api_status *)

(** X15: with a non-empty key configured and a probe answered HTTP 200, the
    tool sends the key check to [/breeds] with the key in [x-api-key] and
    reports the key "valid" exactly when that check answers 200; any other
    status makes it "invalid". The report says "operational" and
    "successful", marks the key as configured and has no [note]. *)
Theorem status_with_key env c k r r2 :
  let key := String c k in
  let tool := check_dog_api_status_doc env (Some key) in
  http env initial probe_request = Responded r ->
  status_code r = 200 ->
  http env {| sent := [probe_request]; clock_reads := 1 |} (auth_request key)
    = Responded r2 ->
  requests tool
  = [probe_request;
     {| url := DOG_API_BASE_URL ++ "/breeds"; params := [];
        headers := [("x-api-key", key)] |}] /\
  (status_code r2 = 200 -> field "api_key_status" tool = Some (JStr "valid")) /\
  (status_code r2 <> 200 ->
   field "api_key_status" tool = Some (JStr "invalid")) /\
  field "api_status" tool = Some (JStr "operational") /\
  field "connectivity" tool = Some (JStr "successful") /\
  field "api_key_configured" tool = Some (JBool true) /\
  field "note" tool = None /\
  field "status" tool = None.
Proof.
  intros key tool Hhttp Hcode Hhttp2. subst key tool.
  run_tool. rewrite Hhttp. cbn. rewrite Hcode. cbn.
  rewrite Hhttp2. cbn.
  split; [reflexivity|].
  split; [intros ->; reflexivity|].
  split; [intros H; apply Z.eqb_neq in H; rewrite H; reflexivity|].
  destruct (status_code r2 =? 200); repeat split; reflexivity.
Qed.

Lemma status_with_key_witness :
  field "api_key_status" (check_dog_api_status_doc key_rejected (Some "stale"))
  = Some (JStr "invalid").
Proof.
  apply (status_with_key key_rejected "s" "tale"
           {| status_code := 200; text := json_dumps (JList []);
              body := inr (JList []) |}
           {| status_code := 401; text := "Unauthorized";
              body := inl "Expecting value" |}
           eq_refl eq_refl eq_refl).
  discriminate.
Defined.

(** X16: when the probe answers with a status other than 200 the report
    says so and nothing more is tried: [api_status] is "error",
    [connectivity] is "failed_with_status_<code>", [error_details] is the
    raw body, and the key check is not sent even if a key is configured. *)
Theorem status_probe_rejected env key r :
  let tool := check_dog_api_status_doc env key in
  http env initial probe_request = Responded r ->
  status_code r <> 200 ->
  requests tool = [probe_request] /\
  field "api_status" tool = Some (JStr "error") /\
  field "connectivity" tool
    = Some (JStr ("failed_with_status_" ++ str_int (status_code r))) /\
  field "error_details" tool = Some (JStr (text r)) /\
  field "api_key_status" tool = None /\
  field "status" tool = None.
Proof.
  intros tool Hhttp Hcode. subst tool. apply Z.eqb_neq in Hcode.
  run_tool. rewrite Hhttp. cbn. rewrite Hcode.
  repeat split; reflexivity.
Qed.

Lemma status_probe_rejected_witness :
  requests (check_dog_api_status_doc unavailable (Some "live_key"))
    = [probe_request] /\
  field "connectivity" (check_dog_api_status_doc unavailable (Some "live_key"))
    = Some (JStr "failed_with_status_503").
Proof.
  pose proof (status_probe_rejected unavailable (Some "live_key")
                {| status_code := 503; text := "Service Unavailable";
                   body := inl "Expecting value" |} eq_refl) as H.
  split; apply H; discriminate.
Defined.

(** X17: every report of [check_dog_api_status] (every returned document
    that is not an error document) carries the time read right after the
    probe, whether a key is configured, the base URL, the configuration
    block and the troubleshooting block, with [troubleshooting] as its last
    field. *)
Theorem status_report_fields env key doc :
  outcome_of (check_dog_api_status_doc env key) = inr doc ->
  dict_get "status" doc = None ->
  dict_get "timestamp" doc
    = Some (JStr (now_isoformat env (after_request initial probe_request))) /\
  dict_get "api_key_configured" doc = Some (JBool (truthy_opt key)) /\
  dict_get "base_url" doc = Some (JStr "https://api.thedogapi.com/v1") /\
  dict_get "configuration" doc
    = Some (JDict [("timeout", JStr "10 seconds");
                   ("max_images_per_request", JInt 10);
                   ("supported_formats", JList [JStr "json"; JStr "src"])]) /\
  dict_get "troubleshooting" doc = Some troubleshooting /\
  option_map fst (last (map Some doc) None) = Some "troubleshooting".
Proof.
  run_tool. destruct key as [[|c k]|]; split_cases; cbn;
    intros Hdoc Hstatus; injection Hdoc as <-;
    try discriminate Hstatus; repeat split; reflexivity.
Qed.

Lemma status_report_fields_witness :
  exists doc,
    outcome_of (check_dog_api_status_doc unavailable None) = inr doc /\
    dict_get "api_key_configured" doc = Some (JBool false) /\
    dict_get "timestamp" doc = Some (JStr "2025-01-01T00:00:00").
Proof.
  eexists. split; [reflexivity|].
  split;
    apply (status_report_fields unavailable None _ eq_refl eq_refl).
Defined.

(** X18: an exception anywhere in [check_dog_api_status] replaces the whole
    report by an error document. A timeout, of the probe or of the key
    check after a successful probe, gives "Connection timeout to The Dog
    API" with three suggestions and a timestamp; any other exception gives
    "Failed to check API status: <str(e)>" with a timestamp. In both cases
    nothing of the report built so far ([api_status], [connectivity]) is
    returned. *)
Theorem status_exceptions env key :
  let tool := check_dog_api_status_doc env key in
  let timeout_doc s :=
    [("status", JStr "error");
     ("message", JStr "Connection timeout to The Dog API");
     ("troubleshooting",
      JDict [("suggestions",
              JList [JStr "Check your internet connection";
                     JStr "Try again in a few moments";
                     JStr "Verify The Dog API is operational"])]);
     ("timestamp", JStr (now_isoformat env s))] in
  let s1 := after_request initial probe_request in
  (forall msg,
      http env initial probe_request = Raised (TimeoutException msg) ->
      outcome_of tool = inr (timeout_doc s1)) /\
  (forall e,
      http env initial probe_request = Raised e -> is_timeout e = false ->
      outcome_of tool
      = inr (generic_doc env "Failed to check API status: " e s1)) /\
  (forall c k r e,
      key = Some (String c k) ->
      http env initial probe_request = Responded r ->
      status_code r = 200 ->
      http env {| sent := [probe_request]; clock_reads := 1 |}
        (auth_request (String c k)) = Raised e ->
      let s2 :=
        {| sent := [probe_request; auth_request (String c k)];
           clock_reads := 1 |} in
      field "api_status" tool = None /\
      field "status" tool = Some (JStr "error") /\
      (is_timeout e = true -> outcome_of tool = inr (timeout_doc s2)) /\
      (is_timeout e = false ->
       outcome_of tool
       = inr (generic_doc env "Failed to check API status: " e s2))).
Proof.
  intros tool timeout_doc s1. subst tool timeout_doc s1. split; [|split].
  - intros msg Hhttp. run_tool. rewrite Hhttp. reflexivity.
  - intros e Hhttp He. run_tool. rewrite Hhttp. cbn. rewrite He. reflexivity.
  - intros c k r e -> Hhttp Hcode Hhttp2 s2. subst s2.
    run_tool. rewrite Hhttp. cbn. rewrite Hcode. cbn. rewrite Hhttp2. cbn.
    destruct (is_timeout e); repeat split; try reflexivity;
      intros H; discriminate H.
Qed.

Lemma status_exceptions_witness :
  field "status" (check_dog_api_status_doc golden_then_slow (Some "live_key"))
    = Some (JStr "error") /\
  field "api_status" (check_dog_api_status_doc golden_then_slow (Some "live_key"))
    = None.
Proof.
  pose proof (proj2 (proj2 (status_exceptions golden_then_slow (Some "live_key")))
                "l"%char "ive_key"
                {| status_code := 200; text := json_dumps (JList [golden_breed]);
                   body := inr (JList [golden_breed]) |}
                (TimeoutException "timed out")
                eq_refl eq_refl eq_refl eq_refl) as H.
  split; apply H.
Defined.

(** ** Bodies the loops do not expect *)

Lemma breed_info_no_timeout breed : no_timeout (breed_info breed).
Proof. unfold breed_info. repeat no_timeout_step. Qed.

Lemma breeds_success_no_timeout page data :
  no_timeout (breeds_success page data).
Proof.
  unfold breeds_success.
  repeat first
    [ apply for_in_no_timeout; intros ? ?
    | apply breed_info_no_timeout | no_timeout_step ].
Qed.

Lemma breed_info_rejects breed :
  well_formed_breed breed = false -> exists e, breed_info breed = inl e.
Proof.
  intros Hwf.
  destruct breed as [| | | | | |b]; try (eexists; reflexivity).
  cbn [well_formed_breed] in Hwf. unfold breed_info. cbn [py_get ebind].
  destruct (dict_get "weight" b) as [[]|]; cbn [object_or_absent andb] in Hwf;
    cbn [py_get ebind]; try (eexists; reflexivity);
    destruct (dict_get "height" b) as [[]|]; try discriminate Hwf;
    cbn [py_get ebind]; eexists; reflexivity.
Qed.

Lemma for_in_rejects (f : json -> E dict) (key : string)
    (accepted : json -> bool) :
  (forall x, accepted x = true -> exists e, f x = inr e) ->
  (forall x, accepted x = false -> exists e, f x = inl e) ->
  forall items, forallb accepted items = false ->
  forall acc, exists e,
    for_in items acc
      (fun x result => info <~ f x ;; inr (dict_append key (JDict info) result))
    = inl e.
Proof.
  intros Hok Hbad. induction items as [|x items IH]; intros Hall acc;
    [discriminate Hall|].
  cbn [forallb] in Hall. cbn [for_in].
  destruct (accepted x) eqn:Hx.
  - destruct (Hok x Hx) as (e & ->). cbn [ebind]. apply IH. exact Hall.
  - destruct (Hbad x Hx) as (e & ->). eexists; reflexivity.
Qed.

(** X19: [get_dog_breeds] has no partial success either. When the breed
    list answers HTTP 200 with a list in which some item is not a breed
    record (not an object, or with a [weight] or [height] that is present
    and not an object, [null] included), the tool returns the generic error
    document and no breed at all. *)
Theorem breeds_malformed_item env key limit page search r items :
  http env initial (breeds_request key limit page search) = Responded r ->
  status_code r = 200 ->
  body r = inr (JList items) ->
  forallb well_formed_breed items = false ->
  exists e,
    outcome_of (get_dog_breeds_doc env key limit page search)
    = inr (generic_doc env "Error fetching dog breeds: " e
             (after_request initial (breeds_request key limit page search))) /\
    field "breeds" (get_dog_breeds_doc env key limit page search) = None.
Proof.
  intros Hhttp Hcode Hbody Hwf.
  destruct (for_in_rejects breed_info "breeds" well_formed_breed
              (fun x Hx => let (e, H) := breed_info_entry x Hx in
                           ex_intro _ e (proj1 H))
              breed_info_rejects items Hwf
              [("status", JStr "success");
               ("count", JInt (Z.of_nat (List.length items)));
               ("page", JInt (breeds_page page)); ("breeds", JList [])])
    as (e & Hloop).
  assert (Hfail : breeds_success (breeds_page page) (JList items) = inl e).
  { unfold breeds_success. cbn [py_len py_iter ebind]. exact Hloop. }
  pose proof (breeds_success_no_timeout _ _ _ Hfail) as He.
  exists e.
  assert (Hdoc : outcome_of (get_dog_breeds_doc env key limit page search)
                 = inr (generic_doc env "Error fetching dog breeds: " e
                          (after_request initial
                             (breeds_request key limit page search)))).
  { run_tool. rewrite Hhttp. cbn. rewrite Hcode. cbn.
    unfold response_json. rewrite Hbody, Hfail. cbn. rewrite He. reflexivity. }
  split; [exact Hdoc|].
  unfold field. rewrite Hdoc. reflexivity.
Qed.

Lemma breeds_malformed_item_witness :
  field "breeds" (get_dog_breeds_doc broken None 10 0 None) = None.
Proof.
  destruct (breeds_malformed_item broken None 10 0 None
              {| status_code := 200; text := json_dumps (JList [JNull]);
                 body := inr (JList [JNull]) |} [JNull]
              eq_refl eq_refl eq_refl eq_refl) as (e & _ & H).
  exact H.
Defined.

(** X20: an HTTP 200 whose body is a JSON object instead of a list. The
    loop of [get_random_dog_image] then runs over the keys of the object:
    an empty object gives a success document with count 0 and no image, and
    any other object (an error payload, say) gives the generic error
    document about a [str] that has no [get]. *)
Theorem random_object_body env key breed_id category_ids format limit r d :
  http env initial (random_request key breed_id category_ids format limit)
    = Responded r ->
  status_code r = 200 ->
  body r = inr (JDict d) ->
  let tool :=
    get_random_dog_image_doc env key breed_id category_ids format limit in
  (d = [] ->
   outcome_of tool
   = inr [("status", JStr "success"); ("count", JInt 0);
          ("images", JList [])]) /\
  (d <> [] ->
   outcome_of tool
   = inr [("status", JStr "error");
          ("message",
           JStr "Unexpected error: 'str' object has no attribute 'get'");
          ("timestamp",
           JStr (now_isoformat env
                   (after_request initial
                      (random_request key breed_id category_ids format
                         limit))))]).
Proof.
  intros Hhttp Hcode Hbody tool. subst tool. split.
  - intros ->. run_tool. rewrite Hhttp. cbn. rewrite Hcode. cbn.
    unfold response_json. rewrite Hbody. reflexivity.
  - intros Hd. destruct d as [|[k v] d]; [contradiction|].
    run_tool. rewrite Hhttp. cbn. rewrite Hcode. cbn.
    unfold response_json. rewrite Hbody. reflexivity.
Qed.

Lemma random_object_body_witness :
  outcome_of (get_random_dog_image_doc
                (scripted [ok_response (JDict [("message", JStr "rate limited")])]
                   "2025-01-01T00:00:00")
                None None None "json" 1)
  = inr [("status", JStr "error");
         ("message",
          JStr "Unexpected error: 'str' object has no attribute 'get'");
         ("timestamp", JStr "2025-01-01T00:00:00")].
Proof.
  apply (proj2 (random_object_body
                  (scripted [ok_response (JDict [("message", JStr "rate limited")])]
                     "2025-01-01T00:00:00")
                  None None None "json" 1
                  {| status_code := 200;
                     text := json_dumps (JDict [("message", JStr "rate limited")]);
                     body := inr (JDict [("message", JStr "rate limited")]) |}
                  [("message", JStr "rate limited")]
                  eq_refl eq_refl eq_refl)).
  discriminate.
Defined.

(** ** The configuration resource and the tools *)

Lemma key_headers_name key h : In h (key_headers key) -> fst h = "x-api-key".
Proof.
  destruct key as [[|c k]|]; simpl; intros H; try contradiction.
  destruct H as [<- | []]. reflexivity.
Qed.

(** X21: what the resource [config://dog-api] announces is what the tools
    do. Every request of every tool goes to a URL under the announced
    [base_url]; the only header a tool ever sends is the announced
    authentication header; and the [limit] of an image search sent with
    query parameters never exceeds the announced
    [max_images_per_request]. *)
Theorem config_describes_tools env key :
  exists base header most,
    dict_get "base_url" dog_api_config_doc = Some (JStr base) /\
    (exists auth,
        dict_get "authentication" dog_api_config_doc = Some (JDict auth) /\
        dict_get "header" auth = Some (JStr header)) /\
    dict_get "max_images_per_request" dog_api_config_doc = Some (JInt most) /\
    forall req,
      sent_by_a_tool env key req ->
      is_prefix base (url req) = true /\
      (forall h, In h (headers req) -> fst h = header) /\
      (forall n,
          url req = base ++ "/images/search" ->
          dict_get "limit" (params req) = Some (JInt n) ->
          n <= most).
Proof.
  exists DOG_API_BASE_URL, "x-api-key", 10.
  split; [reflexivity|]. split; [eexists; split; reflexivity|].
  split; [reflexivity|].
  intros req [(b & c & f & l & Hin) | [(l & p & q & Hin)
                | [(name & l & hb & Hin) | Hin]]].
  - rewrite random_sends_one_request in Hin. destruct Hin as [<- | []].
    split; [reflexivity|]. split; [apply key_headers_name|].
    intros n _ Hn. rewrite random_limit_param in Hn. injection Hn as <-.
    unfold random_limit. rewrite Z.gtb_ltb.
    destruct (Z.ltb_spec l 1); cbn [orb]; [lia|].
    destruct (Z.ltb_spec 10 l); lia.
  - rewrite breeds_sends_one_request in Hin. destruct Hin as [<- | []].
    split; [reflexivity|]. split; [apply key_headers_name|].
    intros n Hurl. discriminate Hurl.
  - destruct (search_requests env key name l hb) as [Hrs | [id Hrs]];
      rewrite Hrs in Hin; simpl in Hin.
    + destruct Hin as [<- | []].
      split; [reflexivity|]. split; [apply key_headers_name|].
      intros n Hurl. discriminate Hurl.
    + destruct Hin as [<- | [<- | []]];
        (split; [reflexivity|]); (split; [apply key_headers_name|]).
      * intros n Hurl. discriminate Hurl.
      * intros n _ Hn. cbn in Hn. injection Hn as <-.
        unfold search_limit. lia.
  - destruct (status_requests env key) as [Hrs | (c & k & _ & Hrs)];
      rewrite Hrs in Hin; simpl in Hin.
    + destruct Hin as [<- | []].
      split; [reflexivity|]. split; [intros h []|].
      intros n Hurl. discriminate Hurl.
    + destruct Hin as [<- | [<- | []]]; (split; [reflexivity|]).
      * split; [intros h []|]. intros n Hurl. discriminate Hurl.
      * split; [intros h [<- | []]; reflexivity|].
        intros n Hurl. discriminate Hurl.
Qed.

Lemma config_describes_tools_witness :
  exists base, is_prefix base (url probe_request) = true.
Proof.
  destruct (config_describes_tools quiet None)
    as (base & header & most & _ & _ & _ & H).
  exists base. apply (H probe_request).
  right; right; right. left. reflexivity.
Defined.
